(** * ad-optimization: the data preparation pipeline of [process.py]

    A shallow embedding of [preprocess], [filter_dates] and
    [reindex_options] and of the part of pandas they rely on, followed by
    the properties of the pipeline.

    Modelling conventions.
    - A [DataFrame] is an ordered list of column names and a list of rows;
      a row carries its index label and its cells in column order.  The
      embedding follows pandas on frames whose column names are pairwise
      distinct and whose rows all carry exactly the frame's columns
      ([well_formed]); a column lookup takes the first column of that name.
    - Numbers (Python [int], numpy integers and floats) are exact rationals
      [Q]: rounding, infinities and overflow of binary floating point are
      not modelled.  Arithmetic on a cell of a metric column that is not a
      number is outside the model (Python would repeat or concatenate
      strings); the embedding raises [TypeError] there.
    - [NaN], [None] and [NaT] are the single missing value [VNaN].
    - A [datetime.date] is its proleptic Gregorian ordinal
      ([date.toordinal()]); dates compare as their ordinals do.
    - Strings are ASCII; [str.lower] changes the letters [A]-[Z] only.
    - The frame a function receives is a mutable object shared with the
      caller.  Each function is a computation in the monad [M], whose state
      is that object; a frame that pandas returns as a new object is an
      ordinary value. *)

From Stdlib Require Import List String Ascii Bool ZArith QArith Qround Qabs Lia Lqa.
Import ListNotations.
Local Open Scope string_scope.
Local Open Scope list_scope.

(** ** Exceptions and results *)

Inductive exn : Type :=
| KeyError
| TypeError
| ValueError
| IndexError
| OverflowError.

Inductive result (A : Type) : Type :=
| Ok (a : A)
| Raise (e : exn).
Arguments Ok {A} a.
Arguments Raise {A} e.

Definition rbind {A B : Type} (r : result A) (k : A -> result B) : result B :=
  match r with
  | Ok a => k a
  | Raise e => Raise e
  end.

Declare Scope result_scope.
Delimit Scope result_scope with result.
Notation "x <~ r ;; k" := (rbind r (fun x => k))
  (at level 61, r at next level, right associativity) : result_scope.
Local Open Scope result_scope.

Fixpoint mapM {A B : Type} (f : A -> result B) (l : list A) : result (list B) :=
  match l with
  | [] => Ok []
  | a :: l' => b <~ f a ;; bs <~ mapM f l' ;; Ok (b :: bs)
  end.

(** ** Cells, rows and frames *)

Inductive value : Type :=
| VNum (q : Q)
| VStr (s : string)
| VDate (o : Z)
| VNaN.

Record Row : Type := mkRow { label : Z; cells : list (string * value) }.

Record DataFrame : Type := mkFrame { columns : list string; rows : list Row }.

Definition coherent_row (cols : list string) (r : Row) : Prop :=
  map fst (cells r) = cols.

Definition well_formed (d : DataFrame) : Prop :=
  NoDup (columns d) /\ Forall (coherent_row (columns d)) (rows d).

Fixpoint lookup (c : string) (cs : list (string * value)) : option value :=
  match cs with
  | [] => None
  | (k, v) :: cs' => if String.eqb k c then Some v else lookup c cs'
  end.

Fixpoint set_cell (c : string) (v : value) (cs : list (string * value))
  : list (string * value) :=
  match cs with
  | [] => [(c, v)]
  | (k, x) :: cs' =>
      if String.eqb k c then (k, v) :: cs' else (k, x) :: set_cell c v cs'
  end.

Definition del_cell (c : string) (cs : list (string * value))
  : list (string * value) :=
  filter (fun kv => negb (String.eqb (fst kv) c)) cs.

(** [row[c]]; a row of a well-formed frame has a cell for every column. *)
Definition cell (c : string) (r : Row) : value :=
  match lookup c (cells r) with
  | Some v => v
  | None => VNaN
  end.

Definition set (c : string) (v : value) (r : Row) : Row :=
  mkRow (label r) (set_cell c v (cells r)).

Definition has_column (c : string) (d : DataFrame) : bool :=
  existsb (String.eqb c) (columns d).

Definition labels (d : DataFrame) : list Z := map label (rows d).

(** [data[c]]: the column as a list of cells, [KeyError] when absent. *)
Definition get_column (c : string) (d : DataFrame) : result (list value) :=
  if has_column c d then Ok (map (cell c) (rows d)) else Raise KeyError.

(** [data.columns = [f(c) for c in data.columns]] and
    [data.rename(columns=..., inplace=True)]. *)
Definition map_columns (f : string -> string) (d : DataFrame) : DataFrame :=
  mkFrame (map f (columns d))
          (map (fun r => mkRow (label r)
                           (map (fun kv => (f (fst kv), snd kv)) (cells r)))
               (rows d)).

Definition rename (old new : string) (d : DataFrame) : DataFrame :=
  map_columns (fun c => if String.eqb c old then new else c) d.

Definition drop_column (c : string) (d : DataFrame) : DataFrame :=
  mkFrame (filter (fun k => negb (String.eqb k c)) (columns d))
          (map (fun r => mkRow (label r) (del_cell c (cells r))) (rows d)).

(** [data.drop(cs, axis='columns')]: every name must be a column. *)
Definition drop_columns (cs : list string) (d : DataFrame) : result DataFrame :=
  if forallb (fun c => has_column c d) cs
  then Ok (fold_left (fun acc c => drop_column c acc) cs d)
  else Raise KeyError.

(** [data[c] = [f(row) for index, row in data.iterrows()]]: the list is
    built first, then assigned; an existing column keeps its place, a new
    one is appended. *)
Definition add_column (c : string) (d : DataFrame) : list string :=
  if has_column c d then columns d else columns d ++ [c].

Definition assign (c : string) (f : Row -> result value) (d : DataFrame)
  : result DataFrame :=
  vs <~ mapM f (rows d) ;;
  Ok (mkFrame (add_column c d)
              (map (fun rv => set c (snd rv) (fst rv)) (combine (rows d) vs))).

(** [data[mask]] / [data.loc[mask]] with a mask computed row by row: a new
    frame with the selected rows under their old labels. *)
Definition filter_rows (p : Row -> bool) (d : DataFrame) : DataFrame :=
  mkFrame (columns d) (filter p (rows d)).

(** ** String helpers: [column.lower().replace(" ", "_")] *)

Fixpoint string_map (f : ascii -> ascii) (s : string) : string :=
  match s with
  | EmptyString => EmptyString
  | String a s' => String (f a) (string_map f s')
  end.

Definition lower_ascii (a : ascii) : ascii :=
  let n := nat_of_ascii a in
  if (65 <=? n)%nat && (n <=? 90)%nat then ascii_of_nat (n + 32) else a.

Definition standardize (column : string) : string :=
  string_map (fun a => if Ascii.eqb a " " then "_"%char else a)
             (string_map lower_ascii column).

(** ** The monad of a function working on the caller's frame *)

Definition M (A : Type) : Type := DataFrame -> DataFrame * result A.

Definition ret {A : Type} (a : A) : M A := fun s => (s, Ok a).

Definition bind {A B : Type} (m : M A) (k : A -> M B) : M B :=
  fun s =>
    match m s with
    | (s', Ok a) => k a s'
    | (s', Raise e) => (s', Raise e)
    end.

(** The object bound to the parameter [data]. *)
Definition get : M DataFrame := fun s => (s, Ok s).

(** An in-place update of that object. *)
Definition modify (f : DataFrame -> DataFrame) : M unit :=
  fun s => (f s, Ok tt).

(** A computation on values that are not shared with the caller. *)
Definition lift {A : Type} (r : result A) : M A := fun s => (s, r).

Declare Scope frame_scope.
Delimit Scope frame_scope with frame.
Notation "x <- m ;; k" := (bind m (fun x => k))
  (at level 61, m at next level, right associativity) : frame_scope.
Notation "m ;; k" := (bind m (fun _ => k))
  (at level 61, right associativity) : frame_scope.

(** What the caller observes of a call [m] on the frame [d]. *)
Definition caller_frame {A : Type} (m : M A) (d : DataFrame) : DataFrame :=
  fst (m d).
Definition returned {A : Type} (m : M A) (d : DataFrame) : result A :=
  snd (m d).

(** ** preprocess *)

Definition metric_columns : list string :=
  ["cost"; "impressions"; "engagements"; "clicks"; "conversions"].

(** [data.replace('', np.nan)]: a new frame. *)
Definition blank_to_nan (v : value) : value :=
  match v with
  | VStr "" => VNaN
  | _ => v
  end.

Definition replace_empty (d : DataFrame) : DataFrame :=
  mkFrame (columns d)
          (map (fun r => mkRow (label r)
                  (map (fun kv => (fst kv, blank_to_nan (snd kv))) (cells r)))
               (rows d)).

(** [data[column].fillna(value=0.0, downcast='infer', inplace=True)]. *)
Definition fill_zero (v : value) : value :=
  match v with
  | VNaN => VNum 0
  | _ => v
  end.

Definition fillna (column : string) (d : DataFrame) : result DataFrame :=
  if has_column column d
  then Ok (mkFrame (columns d)
                   (map (fun r => set column (fill_zero (cell column r)) r)
                        (rows d)))
  else Raise KeyError.

Fixpoint fill_metrics (cs : list string) (d : DataFrame) : result DataFrame :=
  match cs with
  | [] => Ok d
  | c :: cs' => d' <~ fillna c d ;; fill_metrics cs' d'
  end.

(** [data['cost'] != 0], cell by cell: anything that is not a number
    differs from 0. *)
Definition ne_zero (v : value) : bool :=
  match v with
  | VNum q => negb (Qeq_bool q 0)
  | _ => true
  end.

Definition drop_inactive (d : DataFrame) : DataFrame :=
  filter_rows (fun r => ne_zero (cell "cost" r)) d.

(** [data[c].sum()]: missing values are skipped. *)
Fixpoint sum_values (vs : list value) : result Q :=
  match vs with
  | [] => Ok 0
  | VNum q :: vs' => s <~ sum_values vs' ;; Ok (q + s)
  | VNaN :: vs' => sum_values vs'
  | _ :: _ => Raise TypeError
  end.

Definition column_sum (c : string) (d : DataFrame) : result Q :=
  vs <~ get_column c d ;; sum_values vs.

Record Weights : Type := mkWeights {
  impression_weight : Q;
  engagement_weight : Q;
  click_weight : Q;
  conversion_weight : Q
}.

(** One turn of the loop over ['impression', 'engagement', 'click',
    'conversion']; [metric] is [weight + 's']. *)
Definition resolve_weight (supplied : option Q) (metric : string)
           (d : DataFrame) : result Q :=
  match supplied with
  | None =>
      m <~ column_sum metric d ;;
      if Qeq_bool m 0 then Ok 0
      else c <~ column_sum "cost" d ;; Ok (c * 100 / m)
  | Some w => Ok w
  end.

Definition resolve_weights (iw ew cw vw : option Q) (d : DataFrame)
  : result Weights :=
  i <~ resolve_weight iw "impressions" d ;;
  e <~ resolve_weight ew "engagements" d ;;
  c <~ resolve_weight cw "clicks" d ;;
  v <~ resolve_weight vw "conversions" d ;;
  Ok (mkWeights i e c v).

Definition num (c : string) (r : Row) : result Q :=
  match cell c r with
  | VNum q => Ok q
  | _ => Raise TypeError
  end.

Definition successes_of (w : Weights) (r : Row) : result value :=
  i <~ num "impressions" r ;;
  e <~ num "engagements" r ;;
  c <~ num "clicks" r ;;
  v <~ num "conversions" r ;;
  Ok (VNum (i * impression_weight w + e * engagement_weight w
            + c * click_weight w + v * conversion_weight w)).

(** Python's [int(x)]: truncation toward zero. *)
Definition Qtrunc (q : Q) : Z := Z.quot (Qnum q) (Z.pos (Qden q)).

Definition trials_of (r : Row) : result value :=
  c <~ num "cost" r ;;
  s <~ num "successes" r ;;
  Ok (VNum (inject_Z (Qtrunc (c * 100)) + s + 1)).

Definition not_nan (v : value) : bool :=
  match v with
  | VNaN => false
  | _ => true
  end.

(** [data.dropna(axis=0, how='any')]. *)
Definition dropna (d : DataFrame) : DataFrame :=
  filter_rows (fun r => forallb (fun kv => not_nan (snd kv)) (cells r)) d.

(** Lines 15-30: the renaming and dropping of columns, done in place on the
    caller's frame. *)
Definition canonicalize (d : DataFrame) : DataFrame :=
  let d := map_columns standardize d in
  let d := rename "reporting_ends" "date" d in
  let d := rename "amount_spent_(eur)" "cost" d in
  let d := rename "post_engagement" "engagements" d in
  let d := rename "link_clicks" "clicks" d in
  let d := rename "purchases" "conversions" d in
  let d := if has_column "reporting_starts" d
           then drop_column "reporting_starts" d else d in
  let d := rename "day" "date" d in
  if has_column "currency" d then drop_column "currency" d else d.

(** Lines 36-39. *)
Definition active_rows (d : DataFrame) : result DataFrame :=
  d <~ fill_metrics metric_columns d ;;
  Ok (drop_inactive d).

(** Lines 33-39: the frame of active rows, on which the weights are
    inferred.  [data] is rebound to the new frame that [replace] returns,
    so nothing from here on touches the caller's frame. *)
Definition active (data : DataFrame) : result DataFrame :=
  active_rows (replace_empty data).

(** Lines 54-77, on the frame of active rows. *)
Definition derive (w : Weights) (d : DataFrame) : result DataFrame :=
  d <~ assign "successes" (successes_of w) d ;;
  d <~ assign "trials" trials_of d ;;
  d <~ drop_columns metric_columns d ;;
  Ok (dropna d).

(** Lines 33-79. *)
Definition prepare (iw ew cw vw : option Q) (data : DataFrame)
  : result DataFrame :=
  data <~ active data ;;
  weights <~ resolve_weights iw ew cw vw data ;;
  derive weights data.

Definition preprocess (impression_weight engagement_weight click_weight
                       conversion_weight : option Q) : M DataFrame :=
  (modify (map_columns standardize) ;;
   modify (rename "reporting_ends" "date") ;;
   modify (rename "amount_spent_(eur)" "cost") ;;
   modify (rename "post_engagement" "engagements") ;;
   modify (rename "link_clicks" "clicks") ;;
   modify (rename "purchases" "conversions") ;;
   modify (fun d => if has_column "reporting_starts" d
                    then drop_column "reporting_starts" d else d) ;;
   modify (rename "day" "date") ;;
   modify (fun d => if has_column "currency" d
                    then drop_column "currency" d else d) ;;
   data <- get ;;
   lift (prepare impression_weight engagement_weight click_weight
                 conversion_weight data))%frame.


(** A small frame builder for examples: rows labelled 0, 1, ... *)
Fixpoint number_rows (i : Z) (rs : list (list (string * value))) : list Row :=
  match rs with
  | [] => []
  | r :: rs' => mkRow i r :: number_rows (i + 1) rs'
  end.

Definition frame_of (cols : list string) (rs : list (list value)) : DataFrame :=
  mkFrame cols (number_rows 0 (map (combine cols) rs)).

Definition int (z : Z) : value := VNum (inject_Z z).

(** ** Dates: [datetime.date], [strptime] with ['%Y-%m-%d'], pandas bounds *)

Definition is_leap (y : Z) : bool :=
  ((y mod 4 =? 0) && (negb (y mod 100 =? 0) || (y mod 400 =? 0)))%Z.

Definition days_before_year (year : Z) : Z :=
  (let y := year - 1 in y * 365 + y / 4 - y / 100 + y / 400)%Z.

Definition days_in_month (y m : Z) : Z :=
  (if m =? 2 then (if is_leap y then 29 else 28)
   else if (m =? 4) || (m =? 6) || (m =? 9) || (m =? 11) then 30 else 31)%Z.

Definition days_before_month (y m : Z) : Z :=
  (nth (Z.to_nat m) [0; 0; 31; 59; 90; 120; 151; 181; 212; 243; 273; 304; 334] 0
   + (if (2 <? m) && is_leap y then 1 else 0))%Z.

(** [datetime.date(y, m, d).toordinal()], [ValueError] for an invalid
    date. *)
Definition ymd2ord (y m d : Z) : result Z :=
  (if (1 <=? y) && (y <=? 9999) && (1 <=? m) && (m <=? 12)
      && (1 <=? d) && (d <=? days_in_month y m)
   then Ok (days_before_year y + days_before_month y m + d)
   else Raise ValueError)%Z.

Definition max_ordinal : Z := 3652059.

Definition is_digit (a : ascii) : bool :=
  let n := nat_of_ascii a in (48 <=? n)%nat && (n <=? 57)%nat.

Definition digit (a : ascii) : Z := Z.of_nat (nat_of_ascii a) - 48.

Definition in_range (lo hi a : ascii) : bool :=
  (nat_of_ascii lo <=? nat_of_ascii a)%nat
  && (nat_of_ascii a <=? nat_of_ascii hi)%nat.

(** [s.split("-")]. *)
Fixpoint split_dash (s : string) : list string :=
  match s with
  | EmptyString => [EmptyString]
  | String a s' =>
      if Ascii.eqb a "-" then EmptyString :: split_dash s'
      else match split_dash s' with
           | [] => [String a EmptyString]
           | f :: fs => String a f :: fs
           end
  end.

(** The directive [%Y]: exactly four digits. *)
Definition year_field (s : string) : option Z :=
  match s with
  | String a (String b (String c (String d EmptyString))) =>
      if is_digit a && is_digit b && is_digit c && is_digit d
      then Some (1000 * digit a + 100 * digit b + 10 * digit c + digit d)%Z
      else None
  | _ => None
  end.

(** The directive [%m]: [1[0-2]|0[1-9]|[1-9]]. *)
Definition month_field (s : string) : option Z :=
  match s with
  | String a EmptyString =>
      if in_range "1" "9" a then Some (digit a) else None
  | String a (String b EmptyString) =>
      if (Ascii.eqb a "1" && in_range "0" "2" b)
         || (Ascii.eqb a "0" && in_range "1" "9" b)
      then Some (10 * digit a + digit b)%Z else None
  | _ => None
  end.

(** The directive [%d]: [3[0-1]|[1-2]\d|0[1-9]|[1-9]| [1-9]]. *)
Definition day_field (s : string) : option Z :=
  match s with
  | String a EmptyString =>
      if in_range "1" "9" a then Some (digit a) else None
  | String a (String b EmptyString) =>
      if (Ascii.eqb a "3" && in_range "0" "1" b)
         || (in_range "1" "2" a && is_digit b)
         || (Ascii.eqb a "0" && in_range "1" "9" b)
      then Some (10 * digit a + digit b)%Z
      else if Ascii.eqb a " " && in_range "1" "9" b then Some (digit b)
      else None
  | _ => None
  end.

(** Matching a whole string against ['%Y-%m-%d'] with the regular
    expressions of [strptime] (the parser that pandas before 2.0 applies
    to a given format): no field holds a dash, so the match is field by
    field. *)
Definition strptime (s : string) : result Z :=
  match split_dash s with
  | [ys; ms; ds] =>
      match year_field ys, month_field ms, day_field ds with
      | Some y, Some m, Some d => ymd2ord y m d
      | _, _, _ => Raise ValueError
      end
  | _ => Raise ValueError
  end.

(** The days a pandas timestamp (64-bit nanoseconds) can hold at midnight:
    1677-09-22 to 2262-04-11; outside them [to_datetime] raises
    [OutOfBoundsDatetime], a [ValueError]. *)
Definition min_timestamp_day : Z := 612412.
Definition max_timestamp_day : Z := 825914.

Definition in_bounds (o : Z) : result value :=
  if ((min_timestamp_day <=? o) && (o <=? max_timestamp_day))%Z
  then Ok (VDate o) else Raise ValueError.

Definition nat_strings : list string :=
  ["NaT"; "nat"; "NAT"; "nan"; "NaN"; "NAN"].

(** One cell of [pd.to_datetime(col, format='%Y-%m-%d').dt.date]: a value
    that is not a string is parsed from [str(value)]; the text of a date
    is its ISO form, the text of a number never matches. *)
Definition to_date (v : value) : result value :=
  match v with
  | VNaN => Ok VNaN
  | VStr s =>
      if (String.eqb s "" || existsb (String.eqb s) nat_strings)%bool
      then Ok VNaN
      else o <~ strptime s ;; in_bounds o
  | VDate o => in_bounds o
  | VNum _ => Raise ValueError
  end.

(** [today - datetime.timedelta(days=cutoff)], on ordinals. *)
Definition minus_days (today cutoff : Z) : result Z :=
  (if 999999999 <? Z.abs cutoff then Raise OverflowError
   else let o := today - cutoff in
        if (0 <? o) && (o <=? max_ordinal) then Ok o
        else Raise OverflowError)%Z.

(** [date >= bound] in a column comparison: a missing date is not. *)
Definition on_or_after (bound : Z) (v : value) : bool :=
  match v with
  | VDate o => (bound <=? o)%Z
  | _ => false
  end.

(** ** filter_dates *)

Definition put (d : DataFrame) : M unit := fun _ => (d, Ok tt).

(** [data['date'] >= bound]: a column assigned from missing dates only is a
    [datetime64] column, which does not compare with a [datetime.date]; a
    column that holds a date, or no cell at all, holds objects and does. *)
Definition comparable (d : DataFrame) : result unit :=
  match rows d with
  | [] => Ok tt
  | _ :: _ =>
      if forallb (fun r => negb (not_nan (cell "date" r))) (rows d)
      then Raise TypeError
      else Ok tt
  end.

Definition filter_dates (today : Z) (cutoff : Z) : M DataFrame :=
  (data <- get ;;
   _ <- lift (get_column "date" data) ;;
   parsed <- lift (assign "date" (fun r => to_date (cell "date" r)) data) ;;
   put parsed ;;
   bound <- lift (minus_days today cutoff) ;;
   data <- get ;;
   _ <- lift (comparable data) ;;
   ret (filter_rows (fun r => on_or_after bound (cell "date" r)) data))%frame.

(** ** reindex_options *)

(** Equality of cells for [drop_duplicates]: missing values are equal to
    each other. *)
Definition same_value (a b : value) : bool :=
  match a, b with
  | VNum p, VNum q => Qeq_bool p q
  | VStr s, VStr t => String.eqb s t
  | VDate o, VDate o' => (o =? o')%Z
  | VNaN, VNaN => true
  | _, _ => false
  end.

Fixpoint same_cells (r1 r2 : list (string * value)) : bool :=
  match r1, r2 with
  | [], [] => true
  | (k1, v1) :: r1', (k2, v2) :: r2' =>
      String.eqb k1 k2 && same_value v1 v2 && same_cells r1' r2'
  | _, _ => false
  end.

(** The rows that [duplicated(keep='first')] does not mark. *)
Fixpoint keep_first (seen rs : list Row) : list Row :=
  match rs with
  | [] => []
  | r :: rs' =>
      if existsb (fun s => same_cells (cells s) (cells r)) seen
      then keep_first (r :: seen) rs'
      else r :: keep_first (r :: seen) rs'
  end.

Definition drop_duplicates (d : DataFrame) : DataFrame :=
  mkFrame (columns d) (keep_first [] (rows d)).

Fixpoint relabel (name : string) (i : Z) (rs : list Row) : list Row :=
  match rs with
  | [] => []
  | r :: rs' =>
      mkRow i ((name, VNum (inject_Z (label r))) :: cells r)
      :: relabel name (i + 1) rs'
  end.

(** [reset_index()]: labels 0, 1, ...; the old labels become the first
    column, named [index], or [level_0] when [index] is taken. *)
Definition reset_index (d : DataFrame) : result DataFrame :=
  let name := if has_column "index" d then "level_0" else "index" in
  if has_column name d then Raise ValueError
  else Ok (mkFrame (name :: columns d) (relabel name 0 (rows d))).

(** Python's [==] between cells: a missing value equals nothing. *)
Definition eq_value (a b : value) : bool :=
  match a, b with
  | VNum p, VNum q => Qeq_bool p q
  | VStr s, VStr t => String.eqb s t
  | VDate o, VDate o' => (o =? o')%Z
  | _, _ => false
  end.

(** [options.loc[options['ad_id'] == x].index[0]]. *)
Fixpoint first_label (x : value) (rs : list Row) : result Z :=
  match rs with
  | [] => Raise IndexError
  | r :: rs' =>
      if eq_value (cell "ad_id" r) x then Ok (label r) else first_label x rs'
  end.

Definition option_of (options : DataFrame) (x : value) : result Z :=
  if has_column "ad_id" options then first_label x (rows options)
  else Raise KeyError.

(** [data.iloc[i][c]]: by position. *)
Definition iloc (i : nat) (c : string) (d : DataFrame) : result value :=
  match nth_error (rows d) i with
  | None => Raise IndexError
  | Some r => if has_column c d then Ok (cell c r) else Raise KeyError
  end.

(** [data[c] = v] with a scalar. *)
Definition set_all (c : string) (v : value) (d : DataFrame) : DataFrame :=
  mkFrame (add_column c d) (map (set c v) (rows d)).

Definition ensure (c : string) (r : Row) : Row :=
  match lookup c (cells r) with
  | Some _ => r
  | None => set c VNaN r
  end.

(** [data.at[l, c] = v]: by label.  Every row labelled [l] is written; when
    no row carries the label the frame is enlarged by a row labelled [l]
    that is missing everywhere but in [c]. *)
Definition at_set (l : Z) (c : string) (v : value) (d : DataFrame) : DataFrame :=
  if existsb (fun r => (label r =? l)%Z) (rows d)
  then mkFrame (add_column c d)
               (map (fun r => if (label r =? l)%Z then set c v r else ensure c r)
                    (rows d))
  else mkFrame (add_column c d)
               (map (ensure c) (rows d)
                ++ [mkRow l (map (fun k => (k, if String.eqb k c then v else VNaN))
                                 (add_column c d))]).

(** The right-hand side of the assignment in the loop:
    [options.loc[options['ad_id'] == data.iloc[i]['ad_id']].index[0]]. *)
Definition option_at (options data : DataFrame) (i : nat) : result Z :=
  _ <~ get_column "ad_id" options ;;
  x <~ iloc i "ad_id" data ;;
  first_label x (rows options).

(** The loop [for i in range(len(data))]. *)
Fixpoint assign_option_ids (options : DataFrame) (positions : list nat)
  : M unit :=
  match positions with
  | [] => ret tt
  | i :: positions' =>
      (data <- get ;;
       o <- lift (option_at options data i) ;;
       modify (at_set (Z.of_nat i) "option_id" (int o)) ;;
       assign_option_ids options positions')%frame
  end.

(** Lines 95-97: new frames. *)
Definition build_options (data : DataFrame) : result DataFrame :=
  combinations <~ drop_columns ["date"; "trials"; "successes"] data ;;
  d <~ reset_index (drop_duplicates combinations) ;;
  drop_columns ["index"] d.

(** The returned [data] is the caller's frame itself. *)
Definition reindex_options : M (DataFrame * DataFrame) :=
  (data <- get ;;
   options <- lift (build_options data) ;;
   modify (set_all "option_id" (int 0)) ;;
   data <- get ;;
   assign_option_ids options (seq 0 (List.length (rows data))) ;;
   data <- get ;;
   ret (options, data))%frame.

(** ** Properties stated about the pipeline *)


(** A cell of a cost or metric column that holds a number or nothing. *)
Definition numeric_cell (v : value) : Prop :=
  match v with
  | VNum _ => True
  | VStr s => s = ""
  | VNaN => True
  | VDate _ => False
  end.


(** The cost and metric cells of the canonical frame of [d]. *)
Definition metric_cells (P : value -> Prop) (d : DataFrame) : Prop :=
  forall r c, In r (rows (canonicalize d)) -> In c metric_columns ->
              P (cell c r).

Definition metrics_present (d : DataFrame) : Prop :=
  forall c, In c metric_columns -> has_column c (canonicalize d) = true.


(** The weight of one metric as the specification words it, from the
    totals over the active rows. *)
Definition spec_weight (supplied : option Q) (cost_total metric_total : Q) : Q :=
  match supplied with
  | Some w => w
  | None => if Qeq_bool metric_total 0 then 0
            else cost_total * 100 / metric_total
  end.

(** Frames used in the examples below. *)
Definition report_columns : list string :=
  ["ad_id"; "date"; "cost"; "impressions"; "engagements"; "clicks";
   "conversions"].

Definition two_ads : DataFrame :=
  frame_of report_columns
    [[int 1; VStr "2024-06-08"; int 10; int 100; int 0; int 0; int 0];
     [int 2; VStr "2024-06-08"; int 20; int 100; int 0; int 0; int 0]].



(** Three ads, the first of which did not run. *)
Definition three_ads : DataFrame :=
  frame_of report_columns
    [[int 6; VStr "2024-06-08"; int 0; int 100; int 0; int 0; int 0];
     [int 7; VStr "2024-06-08"; int 10; int 100; int 0; int 0; int 0];
     [int 8; VStr "2024-06-08"; int 20; int 100; int 0; int 0; int 0]].


Definition dated_columns : list string :=
  ["ad_id"; "date"; "successes"; "trials"].

Definition june_rows : DataFrame :=
  frame_of dated_columns
    [[int 42; VStr "2024-06-08"; int 20; int 521];
     [int 42; VStr "2024-06-07"; int 20; int 521];
     [int 43; VStr "2030-01-01"; int 20; int 521]].

(** 2024-06-15 as an ordinal. *)
Definition mid_june : Z := 739052.

(** Line 84 of [filter_dates] as a function of the frame. *)
Definition parse_dates (d : DataFrame) : result DataFrame :=
  assign "date" (fun r => to_date (cell "date" r)) d.

(** The frame of [reindex_options] after [k] turns of its loop, in closed
    form, for the input [d] and its options: a row whose label is below
    [k] holds the option found for the row at the position of that label,
    every other row holds 0, and each position below [k] that is nobody's
    label has added a row. *)
Definition chosen (options d : DataFrame) (i : nat) : Z :=
  match option_at options d i with
  | Ok o => o
  | Raise _ => 0%Z
  end.

Definition written (options d : DataFrame) (k : nat) (r : Row) : Row :=
  if ((0 <=? label r) && (label r <? Z.of_nat k))%Z
  then set "option_id" (int (chosen options d (Z.to_nat (label r)))) r
  else set "option_id" (int 0) r.

Definition unlabelled (d : DataFrame) (i : nat) : bool :=
  negb (existsb (fun r => (label r =? Z.of_nat i)%Z) (rows d)).

Definition enlarged (options d : DataFrame) (i : nat) : Row :=
  mkRow (Z.of_nat i)
        (map (fun c => (c, if String.eqb c "option_id"
                           then int (chosen options d i) else VNaN))
             (add_column "option_id" d)).

Definition after_turns (options d : DataFrame) (k : nat) : DataFrame :=
  mkFrame (add_column "option_id" d)
          (map (written options d k) (rows d)
           ++ map (enlarged options d) (filter (unlabelled d) (seq 0 k))).

(** The default index of a frame of [n] rows. *)
Definition range_index (n : nat) : list Z := map Z.of_nat (seq 0 n).

(** The input that [reindex_options] is documented for: the columns it
    names, no column called [index], an identifier in every row. *)
Definition normalized (d : DataFrame) : Prop :=
  has_column "ad_id" d = true /\ has_column "date" d = true /\
  has_column "trials" d = true /\ has_column "successes" d = true /\
  has_column "index" d = false /\
  forall r, In r (rows d) -> cell "ad_id" r <> VNaN.

(** A frame as [preprocess] leaves it when it has dropped the first row of
    three. *)
Definition after_drop : DataFrame :=
  mkFrame dated_columns
    [mkRow 1 (combine dated_columns [int 7; VStr "2024-06-08"; int 20; int 521]);
     mkRow 2 (combine dated_columns [int 8; VStr "2024-06-08"; int 20; int 521])].

(** A report with the column names of a Facebook export. *)
Definition facebook_export : DataFrame :=
  frame_of ["Ad ID"; "Reporting Starts"; "Reporting Ends";
            "Amount Spent (EUR)"; "Impressions"; "Post Engagement";
            "Link Clicks"; "Purchases"]
    [[int 1; VStr "2024-06-01"; VStr "2024-06-08"; int 10; int 100; int 0;
      int 0; int 0]].

(** [l] is [l'] with some elements left out, the others in their order. *)
Inductive subseq {A : Type} : list A -> list A -> Prop :=
| subseq_nil : subseq [] []
| subseq_skip a l l' : subseq l l' -> subseq l (a :: l')
| subseq_keep a l l' : subseq l l' -> subseq (a :: l) (a :: l').

(** A cost cell that line 36 and line 39 read as zero. *)
Definition no_spend (v : value) : Prop :=
  match v with
  | VNum q => q == 0
  | VStr s => s = ""
  | VNaN => True
  | VDate _ => False
  end.

Fixpoint string_forall (p : ascii -> bool) (s : string) : bool :=
  match s with
  | EmptyString => true
  | String a s' => p a && string_forall p s'
  end.

(** Neither a space nor one of the letters [A]-[Z]. *)
Definition plain_char (a : ascii) : bool :=
  negb (Ascii.eqb a " ")
  && negb ((65 <=? nat_of_ascii a)%nat && (nat_of_ascii a <=? 90)%nat).

(** The names that lines 19-30 rename or drop. *)
Definition export_names : list string :=
  ["reporting_ends"; "amount_spent_(eur)"; "post_engagement"; "link_clicks";
   "purchases"; "reporting_starts"; "day"; "currency"].

Definition Qsum (l : list Q) : Q := fold_right Qplus 0 l.



(** The cells of a row that make its option (line 95). *)
Definition identity_cells (r : Row) : list (string * value) :=
  del_cell "successes" (del_cell "trials" (del_cell "date" (cells r))).

(** A three-row frame with a missing identifier in its second row. *)
Definition anonymous_row : DataFrame :=
  frame_of dated_columns
    [[int 42; VStr "2024-06-08"; int 20; int 521];
     [VNaN; VStr "2024-06-08"; int 20; int 521];
     [int 43; VStr "2024-06-08"; int 20; int 521]].

(** Every name a frame uses: its columns and the keys of its rows. *)
Definition names (d : DataFrame) : list string :=
  columns d ++ flat_map (fun r => map fst (cells r)) (rows d).

(** What lines 15-28 make of one column name. *)
Definition canonical_name (column : string) : string :=
  let c := standardize column in
  let c := if String.eqb c "reporting_ends" then "date" else c in
  let c := if String.eqb c "amount_spent_(eur)" then "cost" else c in
  let c := if String.eqb c "post_engagement" then "engagements" else c in
  let c := if String.eqb c "link_clicks" then "clicks" else c in
  let c := if String.eqb c "purchases" then "conversions" else c in
  if String.eqb c "day" then "date" else c.

Definition renamed_names : list string :=
  ["reporting_ends"; "amount_spent_(eur)"; "post_engagement"; "link_clicks";
   "purchases"; "day"].

(** *** The calls on which the embedding computes what the program does *)

(** The number a cell of a cost or metric column counts as: a missing or
    empty cell counts as 0. *)
Definition amount (v : value) : Q :=
  match v with
  | VNum q => q
  | _ => 0
  end.

(** A row that has run: its cost is not zero. *)
Definition spent (r : Row) : bool := negb (Qeq_bool (amount (cell "cost" r)) 0).

(** The total of a column over the rows that have run. *)
Definition spec_total (c : string) (d : DataFrame) : Q :=
  Qsum (map (fun r => amount (cell c r)) (filter spent (rows d))).

Definition spec_weights (iw ew cw vw : option Q) (d : DataFrame) : Weights :=
  mkWeights (spec_weight iw (spec_total "cost" d) (spec_total "impressions" d))
            (spec_weight ew (spec_total "cost" d) (spec_total "engagements" d))
            (spec_weight cw (spec_total "cost" d) (spec_total "clicks" d))
            (spec_weight vw (spec_total "cost" d) (spec_total "conversions" d)).

(** Successes and trials of a row, from its cells and the weights. *)
Definition spec_successes (w : Weights) (r : Row) : Q :=
  amount (cell "impressions" r) * impression_weight w
  + amount (cell "engagements" r) * engagement_weight w
  + amount (cell "clicks" r) * click_weight w
  + amount (cell "conversions" r) * conversion_weight w.

Definition spec_trials (w : Weights) (r : Row) : Q :=
  inject_Z (Qtrunc (amount (cell "cost" r) * 100)) + spec_successes w r + 1.

(** No two columns have the same canonical name.  With two columns of one
    name [data[name]] is a frame, not a column, and the program takes paths
    that the embedding does not follow. *)
Definition distinct_columns (d : DataFrame) : Prop :=
  NoDup (columns (canonicalize d)).

Fixpoint pow2 (p : positive) : bool :=
  match p with
  | xH => true
  | xO p' => pow2 p'
  | xI _ => false
  end.

(** A number that an [int64] or [float64] computation yields as it is:
    [m / 2^k] in lowest terms with [|m| <= 2^53] and [k <= 1074].  Such a
    number is a binary64 number, and an integer among them is an [int64];
    when the exact result of [+], [*], [/] or [int()] on such numbers is
    such a number again, it is the result in either type. *)
Definition exact64 (q : Q) : bool :=
  let r := Qred q in
  pow2 (Qden r) && (Z.pos (Qden r) <=? 2 ^ 1074)%Z
  && (Z.abs (Qnum r) <=? 2 ^ 53)%Z.

(** A column whose sum is exact in whatever order and grouping it is
    taken: its numbers are multiples of one power of two [1 / u], and their
    magnitudes add up to [2^53 / u] at most. *)
Definition grid (qs : list Q) : positive :=
  fold_right (fun q u => Pos.max (Qden (Qred q)) u) 1%positive qs.

Definition exact_total (qs : list Q) : bool :=
  forallb exact64 qs
  && Qle_bool (Qsum (map Qabs qs) * inject_Z (Z.pos (grid qs)))
              (inject_Z (2 ^ 53)).

(** Lines 44-49 for one metric: a supplied weight is a number of the
    program; an inferred one takes a product and a quotient. *)
Definition exact_weight (supplied : option Q) (cost_total metric_total : Q)
  : bool :=
  match supplied with
  | Some w => exact64 w
  | None =>
      Qeq_bool metric_total 0
      || (exact64 (cost_total * 100)
          && exact64 (cost_total * 100 / metric_total))
  end.

(** Lines 54-63 for one row: the four products, their sums from left to
    right, the cost in cents and the two sums of line 62. *)
Definition exact_row (w : Weights) (r : Row) : bool :=
  let i := amount (cell "impressions" r) * impression_weight w in
  let e := amount (cell "engagements" r) * engagement_weight w in
  let c := amount (cell "clicks" r) * click_weight w in
  let v := amount (cell "conversions" r) * conversion_weight w in
  let cents := amount (cell "cost" r) * 100 in
  forallb exact64
    [i; e; c; v; i + e; i + e + c; i + e + c + v; cents;
     inject_Z (Qtrunc cents) + (i + e + c + v);
     inject_Z (Qtrunc cents) + (i + e + c + v) + 1].

(** The program computes in numpy's [int64] and [float64], the embedding
    in [Q].  On a call for which [exact_run] holds every number the
    program reads from the rows that have run, every column total, weight,
    product and sum it computes from them is exact in either type, so that
    no result is rounded and none wraps around: there the numbers of the
    embedding are the numbers of the program. *)
Definition exact_run (iw ew cw vw : option Q) (d : DataFrame) : bool :=
  let data := canonicalize d in
  let total c := spec_total c data in
  forallb (fun c => exact_total (map (fun r => amount (cell c r))
                                     (filter spent (rows data))))
          metric_columns
  && exact_weight iw (total "cost") (total "impressions")
  && exact_weight ew (total "cost") (total "engagements")
  && exact_weight cw (total "cost") (total "clicks")
  && exact_weight vw (total "cost") (total "conversions")
  && forallb (exact_row (spec_weights iw ew cw vw data))
             (filter spent (rows data)).

(** A report with missing and empty cells: the second ad has no
    engagements on record and an empty clicks cell, the third has no cost
    on record. *)
Definition sparse_ads : DataFrame :=
  frame_of report_columns
    [[int 1; VStr "2024-06-08"; int 10; int 100; int 4; int 2; int 0];
     [int 2; VStr "2024-06-08"; int 20; int 100; VNaN; VStr ""; int 0];
     [int 3; VStr "2024-06-08"; VNaN; int 100; int 4; int 2; int 0]].

(** Two ads with half a success for each impression. *)
Definition half_ads : DataFrame :=
  frame_of report_columns
    [[int 1; VStr "2024-06-08"; int 1; int 1; int 0; int 0; int 0];
     [int 2; VStr "2024-06-08"; int 2; int 3; int 0; int 0; int 0]].

(** Two ads whose cost is a refund: 5 and 1/256. *)
Definition refund_ads : DataFrame :=
  frame_of report_columns
    [[int 1; VStr "2024-06-08"; int (-5); int 0; int 0; int 0; int 0];
     [int 2; VStr "2024-06-08"; VNum (-1 # 256); int 0; int 0; int 0; int 0]].

(** A date as the reports write it: [YYYY-MM-DD], ten characters. *)
Definition iso_text (s : string) : bool :=
  match s with
  | String y1 (String y2 (String y3 (String y4 (String h1
      (String m1 (String m2 (String h2 (String d1 (String d2
        EmptyString))))))))) =>
      is_digit y1 && is_digit y2 && is_digit y3 && is_digit y4
      && Ascii.eqb h1 "-" && is_digit m1 && is_digit m2
      && Ascii.eqb h2 "-" && is_digit d1 && is_digit d2
  | _ => false
  end.

(** A date cell on which every parser of ['%Y-%m-%d'] agrees: a missing
    value, a date, or a text [YYYY-MM-DD]. *)
Definition plain_date (v : value) : bool :=
  match v with
  | VNaN => true
  | VDate _ => true
  | VStr s => iso_text s
  | VNum _ => false
  end.

(** A frame without a single date on record. *)
Definition dateless : DataFrame :=
  frame_of dated_columns
    [[int 42; VNaN; int 20; int 521];
     [int 43; VNaN; int 20; int 521]].

(** ** Cells and rows *)

Lemma lookup_set_same c v cs : lookup c (set_cell c v cs) = Some v.
Proof.
  induction cs as [|[k x] cs IH]; simpl.
  - now rewrite String.eqb_refl.
  - destruct (String.eqb k c) eqn:E; simpl; now rewrite E.
Qed.

Lemma lookup_set_other c c' v cs :
  c <> c' -> lookup c' (set_cell c v cs) = lookup c' cs.
Proof.
  intros Hne. induction cs as [|[k x] cs IH]; simpl.
  - destruct (String.eqb c c') eqn:E; [apply String.eqb_eq in E; tauto | reflexivity].
  - destruct (String.eqb k c) eqn:E; simpl.
    + apply String.eqb_eq in E; subst k.
      destruct (String.eqb c c') eqn:E'; [apply String.eqb_eq in E'; tauto | reflexivity].
    + now rewrite IH.
Qed.

Lemma set_cell_twice c v w cs :
  set_cell c v (set_cell c w cs) = set_cell c v cs.
Proof.
  induction cs as [|[k x] cs IH]; simpl.
  - now rewrite String.eqb_refl.
  - destruct (String.eqb k c) eqn:E; simpl; rewrite E; [reflexivity | now rewrite IH].
Qed.

Lemma set_cell_same c v cs : lookup c cs = Some v -> set_cell c v cs = cs.
Proof.
  induction cs as [|[k x] cs IH]; simpl; [discriminate|].
  destruct (String.eqb k c); intros H; [now inversion H | now rewrite IH].
Qed.

Lemma lookup_del_other c c' cs :
  c <> c' -> lookup c' (del_cell c cs) = lookup c' cs.
Proof.
  intros Hne. induction cs as [|[k x] cs IH]; simpl; [reflexivity|].
  destruct (String.eqb k c) eqn:E; simpl.
  - apply String.eqb_eq in E; subst k.
    destruct (String.eqb c c') eqn:E'; [apply String.eqb_eq in E'; tauto | exact IH].
  - now rewrite IH.
Qed.

Lemma cell_set_same c v r : cell c (set c v r) = v.
Proof. unfold cell, set; simpl. now rewrite lookup_set_same. Qed.

Lemma cell_set_other c c' v r : c <> c' -> cell c' (set c v r) = cell c' r.
Proof. intros H. unfold cell, set; simpl. now rewrite lookup_set_other. Qed.

Lemma set_twice c v w r : set c v (set c w r) = set c v r.
Proof. unfold set; simpl. now rewrite set_cell_twice. Qed.

Lemma label_set c v r : label (set c v r) = label r.
Proof. reflexivity. Qed.

Lemma ensure_set c v r : ensure c (set c v r) = set c v r.
Proof. unfold ensure. simpl. now rewrite lookup_set_same. Qed.

(** ** Results *)

Lemma mapM_spec {A B : Type} (f : A -> result B) l bs :
  mapM f l = Ok bs -> Forall2 (fun a b => f a = Ok b) l bs.
Proof.
  revert bs. induction l as [|a l IH]; simpl; intros bs H.
  - inversion H; constructor.
  - destruct (f a) eqn:Ea; simpl in H; [|discriminate].
    destruct (mapM f l) eqn:El; simpl in H; [|discriminate].
    inversion H; subst. constructor; auto.
Qed.


(** The rows of an assigned column: each row with its own value set. *)
Lemma assign_rows c f d d' :
  assign c f d = Ok d' ->
  columns d' = add_column c d /\
  Forall2 (fun r r' => exists v, f r = Ok v /\ r' = set c v r) (rows d) (rows d').
Proof.
  unfold assign. destruct (mapM f (rows d)) as [vs|] eqn:E; simpl; [|discriminate].
  intros H; inversion H; subst; clear H. simpl. split; [reflexivity|].
  apply mapM_spec in E. induction E; simpl; constructor; eauto.
Qed.

Lemma assign_in c f d d' r' :
  assign c f d = Ok d' -> In r' (rows d') ->
  exists r v, In r (rows d) /\ f r = Ok v /\ r' = set c v r.
Proof.
  intros H Hin. apply assign_rows in H as [_ H].
  induction H as [|r r1 l l' Hr _ IH]; [contradiction|].
  destruct Hin as [<-|Hin].
  - destruct Hr as [v [Hv ->]]. exists r, v. simpl; auto.
  - destruct (IH Hin) as [r0 [v [? ?]]]. exists r0, v. simpl; tauto.
Qed.


(** ** Checks of the constants and of the example frames *)

Example first_timestamp_day : ymd2ord 1677 9 22 = Ok min_timestamp_day.
Proof. reflexivity. Qed.

Example last_timestamp_day : ymd2ord 2262 4 11 = Ok max_timestamp_day.
Proof. reflexivity. Qed.

Example last_date : ymd2ord 9999 12 31 = Ok max_ordinal.
Proof. reflexivity. Qed.

Example leap_day : ymd2ord 2024 2 29 = Ok 738945%Z /\ ymd2ord 2023 2 29 = Raise ValueError.
Proof. split; reflexivity. Qed.

Example standardize_spend : standardize "Amount Spent (EUR)" = "amount_spent_(eur)".
Proof. reflexivity. Qed.

Ltac frame_well_formed :=
  split;
  [ repeat constructor; simpl; intuition discriminate
  | repeat constructor ].

Lemma two_ads_well_formed : well_formed two_ads.
Proof. frame_well_formed. Qed.

Lemma three_ads_well_formed : well_formed three_ads.
Proof. frame_well_formed. Qed.

Lemma june_rows_well_formed : well_formed june_rows.
Proof. frame_well_formed. Qed.

Lemma after_drop_well_formed : well_formed after_drop.
Proof. frame_well_formed. Qed.

Lemma facebook_export_well_formed :
  well_formed facebook_export /\ well_formed (canonicalize facebook_export).
Proof. split; frame_well_formed. Qed.

(** ** Columns *)

Lemma has_column_In c d : has_column c d = true <-> In c (columns d).
Proof.
  unfold has_column. rewrite existsb_exists. split.
  - intros [x [Hx E]]. apply String.eqb_eq in E. now subst.
  - intros H. exists c. split; [assumption | apply String.eqb_refl].
Qed.

Lemma In_add_column c c' d :
  In c' (add_column c d) <-> In c' (columns d) \/ c' = c.
Proof.
  unfold add_column. destruct (has_column c d) eqn:E.
  - apply has_column_In in E. split; [tauto | intros [H| ->]; assumption].
  - rewrite in_app_iff. simpl. intuition.
Qed.

Lemma has_column_drop c c' d :
  has_column c' (drop_column c d) = true <-> has_column c' d = true /\ c' <> c.
Proof.
  rewrite !has_column_In. unfold drop_column; simpl. rewrite filter_In.
  rewrite negb_true_iff, String.eqb_neq. tauto.
Qed.

Lemma drop_fold_rows cs : forall d r',
  In r' (rows (fold_left (fun acc c => drop_column c acc) cs d)) ->
  exists r, In r (rows d) /\ label r' = label r /\
            forall c, ~ In c cs -> cell c r' = cell c r.
Proof.
  induction cs as [|c0 cs IH]; simpl; intros d r' Hin.
  - exists r'. auto.
  - destruct (IH _ _ Hin) as [r1 [H1 [Hl Hc]]].
    simpl in H1. apply in_map_iff in H1 as [r [<- Hr]].
    exists r. split; [assumption|]. split; [assumption|].
    intros c Hn. rewrite Hc by tauto. unfold cell; simpl.
    rewrite lookup_del_other; [reflexivity | intros ->; tauto].
Qed.

Lemma drop_columns_in cs d d' r' :
  drop_columns cs d = Ok d' -> In r' (rows d') ->
  exists r, In r (rows d) /\ label r' = label r /\
            forall c, ~ In c cs -> cell c r' = cell c r.
Proof.
  unfold drop_columns. destruct (forallb _ cs); [|discriminate].
  intros H; inversion H; subst. apply drop_fold_rows.
Qed.


(** ** The frame of active rows *)

Lemma lookup_map_snd (g : value -> value) c cs :
  lookup c (map (fun kv => (fst kv, g (snd kv))) cs) = option_map g (lookup c cs).
Proof.
  induction cs as [|[k x] cs IH]; simpl; [reflexivity|].
  destruct (String.eqb k c); [reflexivity | exact IH].
Qed.

Lemma replace_empty_in d r' :
  In r' (rows (replace_empty d)) ->
  exists r, In r (rows d) /\ label r' = label r /\
            forall c, cell c r' = blank_to_nan (cell c r).
Proof.
  simpl. intros H. apply in_map_iff in H as [r [<- Hr]].
  exists r. repeat split; [assumption|]. intros c. unfold cell; simpl.
  rewrite lookup_map_snd. now destruct (lookup c (cells r)).
Qed.

Lemma fill_zero_twice v : fill_zero (fill_zero v) = fill_zero v.
Proof. now destruct v. Qed.

Lemma fill_metrics_columns cs : forall d d',
  fill_metrics cs d = Ok d' -> columns d' = columns d.
Proof.
  induction cs as [|c cs IH]; simpl; intros d d' H.
  - now inversion H.
  - unfold fillna in H. destruct (has_column c d); simpl in H; [|discriminate].
    now rewrite (IH _ _ H).
Qed.

Lemma fill_metrics_in cs : forall d d' r',
  fill_metrics cs d = Ok d' -> In r' (rows d') ->
  exists r, In r (rows d) /\ label r' = label r /\
            (forall c, In c cs -> cell c r' = fill_zero (cell c r)) /\
            (forall c, ~ In c cs -> cell c r' = cell c r).
Proof.
  induction cs as [|c0 cs IH]; simpl; intros d d' r' H Hin.
  - inversion H; subst. exists r'. repeat split; tauto.
  - unfold fillna in H. destruct (has_column c0 d); simpl in H; [|discriminate].
    destruct (IH _ _ _ H Hin) as [r1 [H1 [Hl [Hy Hn]]]].
    simpl in H1. apply in_map_iff in H1 as [r [<- Hr]].
    exists r. split; [assumption|]. split; [assumption|]. split.
    + intros c [->|Hc].
      * destruct (in_dec string_dec c cs) as [i|n].
        -- rewrite (Hy _ i), cell_set_same. apply fill_zero_twice.
        -- rewrite (Hn _ n). apply cell_set_same.
      * rewrite (Hy _ Hc). destruct (string_dec c0 c) as [->|ne].
        -- rewrite cell_set_same. apply fill_zero_twice.
        -- now rewrite cell_set_other.
    + intros c Hc. rewrite Hn by tauto. apply cell_set_other. tauto.
Qed.



Lemma active_in d a r :
  active d = Ok a -> In r (rows a) ->
  ne_zero (cell "cost" r) = true /\
  exists r0, In r0 (rows d) /\ label r = label r0 /\
             (forall c, In c metric_columns ->
                        cell c r = fill_zero (blank_to_nan (cell c r0))) /\
             (forall c, ~ In c metric_columns ->
                        cell c r = blank_to_nan (cell c r0)).
Proof.
  unfold active, active_rows.
  destruct (fill_metrics metric_columns (replace_empty d)) as [f|] eqn:E;
    simpl; [|discriminate].
  intros H; inversion H; subst; clear H. simpl. rewrite filter_In.
  intros [Hin Hcost]. split; [assumption|].
  destruct (fill_metrics_in _ _ _ _ E Hin) as [r1 [H1 [Hl [Hy Hn]]]].
  destruct (replace_empty_in _ _ H1) as [r0 [H0 [Hl0 Hc0]]].
  exists r0. split; [assumption|]. split; [congruence|]. split.
  - intros c Hc. now rewrite (Hy _ Hc), Hc0.
  - intros c Hc. now rewrite (Hn _ Hc), Hc0.
Qed.

Lemma active_columns d a : active d = Ok a -> columns a = columns d.
Proof.
  unfold active, active_rows.
  destruct (fill_metrics metric_columns (replace_empty d)) as [f|] eqn:E;
    simpl; [|discriminate].
  intros H; inversion H; subst; simpl. now rewrite (fill_metrics_columns _ _ _ E).
Qed.





(** ** Weights *)








(** ** Successes and trials *)

Lemma num_inv c r q : num c r = Ok q -> cell c r = VNum q.
Proof. unfold num. destruct (cell c r); intros H; now inversion H. Qed.

Lemma successes_of_inv w r v :
  successes_of w r = Ok v ->
  exists i e c k,
    cell "impressions" r = VNum i /\ cell "engagements" r = VNum e /\
    cell "clicks" r = VNum c /\ cell "conversions" r = VNum k /\
    v = VNum (i * impression_weight w + e * engagement_weight w
              + c * click_weight w + k * conversion_weight w).
Proof.
  unfold successes_of.
  destruct (num "impressions" r) as [i|] eqn:Ei; simpl; [|discriminate].
  destruct (num "engagements" r) as [e|] eqn:Ee; simpl; [|discriminate].
  destruct (num "clicks" r) as [c|] eqn:Ec; simpl; [|discriminate].
  destruct (num "conversions" r) as [k|] eqn:Ek; simpl; [|discriminate].
  intros H; inversion H; subst. exists i, e, c, k.
  repeat split; now apply num_inv.
Qed.


Lemma in_metric_columns c :
  In c metric_columns <->
  c = "cost" \/ c = "impressions" \/ c = "engagements" \/ c = "clicks"
  \/ c = "conversions".
Proof. unfold metric_columns; simpl. intuition. Qed.

Lemma derive_in w a out r' :
  derive w a = Ok out -> In r' (rows out) ->
  exists r c s,
    In r (rows a) /\ label r' = label r /\
    cell "cost" r = VNum c /\ successes_of w r = Ok (VNum s) /\
    cell "successes" r' = VNum s /\
    cell "trials" r' = VNum (inject_Z (Qtrunc (c * 100)) + s + 1).
Proof.
  unfold derive.
  destruct (assign "successes" (successes_of w) a) as [d1|] eqn:E1; simpl; [|discriminate].
  destruct (assign "trials" trials_of d1) as [d2|] eqn:E2; simpl; [|discriminate].
  destruct (drop_columns metric_columns d2) as [d3|] eqn:E3; simpl; [|discriminate].
  intros H; inversion H; subst; clear H. simpl. rewrite filter_In. intros [Hin _].
  destruct (drop_columns_in _ _ _ _ E3 Hin) as [r2 [H2 [Hl2 Hc2]]].
  destruct (assign_in _ _ _ _ _ E2 H2) as [r1 [t [H1 [Ht ->]]]].
  destruct (assign_in _ _ _ _ _ E1 H1) as [r [v [Hr [Hv ->]]]].
  destruct (successes_of_inv _ _ _ Hv) as [i [e [c [k [_ [_ [_ [_ Es]]]]]]]].
  unfold trials_of in Ht.
  unfold num in Ht. rewrite cell_set_other, cell_set_same in Ht by discriminate.
  destruct (cell "cost" r) as [cost| | |] eqn:Ecost; simpl in Ht; try discriminate.
  subst v. simpl in Ht. injection Ht as <-.
  eexists r, cost, _. split; [assumption|]. split; [exact Hl2|].
  split; [exact Ecost|]. split; [exact Hv|].
  rewrite !Hc2 by (rewrite in_metric_columns; intuition discriminate).
  rewrite cell_set_same, cell_set_other, cell_set_same by discriminate.
  split; reflexivity.
Qed.








(** What a call of [preprocess] does: the column names of the caller's
    frame are made canonical in place, the rest is computed on new
    frames. *)
Lemma preprocess_run iw ew cw vw d :
  preprocess iw ew cw vw d = (canonicalize d, prepare iw ew cw vw (canonicalize d)).
Proof. reflexivity. Qed.



(** ** The weights of a call *)



Ltac each_row H :=
  cbv in H; repeat (destruct H as [H|H]; [subst|]); try contradiction.

Ltac each_metric H :=
  simpl in H; repeat (destruct H as [H|H]; [subst|]); try contradiction.

Lemma two_ads_present : metrics_present two_ads.
Proof. intros c Hc. each_metric Hc; reflexivity. Qed.


Lemma two_ads_numeric : metric_cells numeric_cell two_ads.
Proof.
  intros r c Hr Hc. each_row Hr; each_metric Hc; exact I.
Qed.

(** ** Claims about [preprocess] *)














(** ** filter_dates *)

Lemma filter_dates_run today cutoff d :
  filter_dates today cutoff d =
  match get_column "date" d with
  | Raise e => (d, Raise e)
  | Ok _ =>
      match parse_dates d with
      | Raise e => (d, Raise e)
      | Ok parsed =>
          match minus_days today cutoff with
          | Raise e => (parsed, Raise e)
          | Ok bound =>
              match comparable parsed with
              | Raise e => (parsed, Raise e)
              | Ok _ =>
                  (parsed,
                   Ok (filter_rows (fun r => on_or_after bound (cell "date" r))
                                   parsed))
              end
          end
      end
  end.
Proof.
  unfold filter_dates, bind, get, lift, put, ret, parse_dates.
  destruct (get_column "date" d); [|reflexivity].
  destruct (assign "date" _ d) as [parsed|]; [|reflexivity].
  destruct (minus_days today cutoff); [|reflexivity].
  destruct (comparable parsed); reflexivity.
Qed.

Lemma comparable_dated d :
  (forall r, In r (rows d) -> exists o, cell "date" r = VDate o) ->
  comparable d = Ok tt.
Proof.
  unfold comparable. destruct (rows d) as [|r rs]; [reflexivity|].
  intros H. destruct (H r (or_introl eq_refl)) as [o Ho].
  simpl. now rewrite Ho.
Qed.

Lemma comparable_selected bound d :
  comparable (filter_rows (fun r => on_or_after bound (cell "date" r)) d) = Ok tt.
Proof.
  apply comparable_dated. intros r Hr. simpl in Hr.
  apply filter_In in Hr as [_ Hk].
  destruct (cell "date" r); try discriminate. eauto.
Qed.

Lemma minus_days_inv today cutoff bound :
  minus_days today cutoff = Ok bound -> bound = (today - cutoff)%Z.
Proof.
  unfold minus_days. destruct (999999999 <? Z.abs cutoff)%Z; [discriminate|].
  destruct ((0 <? today - cutoff) && (today - cutoff <=? max_ordinal))%Z;
    intros H; now inversion H.
Qed.

Lemma on_or_after_spec bound v :
  on_or_after bound v = true <-> exists o, v = VDate o /\ (bound <= o)%Z.
Proof.
  destruct v as [q|s|o|]; simpl; split;
    try discriminate; try (intros [o' [E _]]; discriminate).
  - intros H. exists o. split; [reflexivity | lia].
  - intros [o' [E H]]. inversion E; subst. lia.
Qed.

Lemma to_date_again v o :
  to_date v = Ok (VDate o) -> to_date (VDate o) = Ok (VDate o).
Proof.
  assert (B : forall x, in_bounds x = Ok (VDate o) ->
                        in_bounds o = Ok (VDate o)).
  { intros x. unfold in_bounds.
    destruct ((min_timestamp_day <=? x) && (x <=? max_timestamp_day))%Z eqn:E;
      intros H; inversion H; subst. now rewrite E. }
  destruct v as [q|s|x|]; unfold to_date at 1; try discriminate.
  - destruct (String.eqb s "" || existsb (String.eqb s) nat_strings)%bool;
      [discriminate|].
    destruct (strptime s) as [x|]; [apply B | discriminate].
  - apply B.
Qed.

Lemma cell_lookup c r v : cell c r = v -> v <> VNaN -> lookup c (cells r) = Some v.
Proof.
  unfold cell. destruct (lookup c (cells r)); intros <- H; [reflexivity | tauto].
Qed.

Lemma set_same c r v : lookup c (cells r) = Some v -> set c v r = r.
Proof.
  intros H. unfold set. rewrite (set_cell_same _ _ _ H). now destruct r.
Qed.

Lemma mapM_fixed (f : Row -> result value) c rs :
  (forall r, In r rs -> f r = Ok (cell c r) /\ lookup c (cells r) = Some (cell c r)) ->
  exists vs, mapM f rs = Ok vs /\
             map (fun rv => set c (snd rv) (fst rv)) (combine rs vs) = rs.
Proof.
  induction rs as [|r rs IH]; simpl; intros H.
  - exists []. auto.
  - destruct (H r (or_introl eq_refl)) as [Hf Hl].
    destruct IH as [vs [Hvs Hm]]; [intros; apply H; now right|].
    exists (cell c r :: vs). rewrite Hf, Hvs. simpl.
    split; [reflexivity|]. now rewrite Hm, (set_same _ _ _ Hl).
Qed.

Lemma assign_fixed c f d :
  has_column c d = true ->
  (forall r, In r (rows d) ->
             f r = Ok (cell c r) /\ lookup c (cells r) = Some (cell c r)) ->
  assign c f d = Ok d.
Proof.
  intros Hc H. destruct (mapM_fixed f c (rows d) H) as [vs [Hvs Hm]].
  unfold assign. rewrite Hvs. simpl. rewrite Hm.
  unfold add_column. rewrite Hc. now destruct d.
Qed.

Lemma filter_twice {A : Type} (p : A -> bool) l : filter p (filter p l) = filter p l.
Proof.
  induction l as [|a l IH]; simpl; [reflexivity|].
  destruct (p a) eqn:E; simpl; [rewrite E, IH; reflexivity | exact IH].
Qed.

Lemma parse_dates_columns d parsed :
  has_column "date" d = true -> parse_dates d = Ok parsed ->
  columns parsed = columns d.
Proof.
  intros Hc H. apply assign_rows in H as [-> _].
  unfold add_column. now rewrite Hc.
Qed.

(** C5.  [filter_dates] parses the dates and returns exactly the rows
    whose date is on or after [today - cutoff] days: the bound itself is
    kept and there is no upper bound.  With today 2024-06-15 and a cutoff of
    7 days, a row of 2024-06-08 is kept, one of 2024-06-07 is not, and one
    of 2030-01-01 passes. *)
Theorem filter_dates_keeps_recent :
  (forall today cutoff d out,
     returned (filter_dates today cutoff) d = Ok out ->
     exists parsed,
       parse_dates d = Ok parsed /\
       Forall2 (fun r0 r => exists v, to_date (cell "date" r0) = Ok v /\
                                      r = set "date" v r0)
               (rows d) (rows parsed) /\
       columns out = columns parsed /\
       rows out = filter (fun r => on_or_after (today - cutoff) (cell "date" r))
                         (rows parsed) /\
       forall r, In r (rows out) <->
                 In r (rows parsed) /\
                 exists o, cell "date" r = VDate o /\ (today - cutoff <= o)%Z)
  /\ (ymd2ord 2024 6 15 = Ok mid_june /\
      strptime "2024-06-08" = Ok (mid_june - 7)%Z /\
      strptime "2024-06-07" = Ok (mid_june - 8)%Z /\
      exists out, returned (filter_dates mid_june 7) june_rows = Ok out /\
                  map label (rows out) = [0; 2]%Z /\
                  map (cell "date") (rows out)
                  = [VDate (mid_june - 7); VDate 741078]).
Proof.
  split.
  - intros today cutoff d out H. unfold returned in H.
    rewrite filter_dates_run in H.
    destruct (get_column "date" d) as [col|]; [|discriminate].
    destruct (parse_dates d) as [parsed|] eqn:Ep; [|discriminate].
    destruct (minus_days today cutoff) as [bound|] eqn:Eb; [|discriminate].
    destruct (comparable parsed); [|discriminate].
    simpl in H. inversion H; subst out; clear H.
    apply minus_days_inv in Eb. subst bound.
    exists parsed. split; [reflexivity|].
    split; [exact (proj2 (assign_rows _ _ _ _ Ep))|].
    split; [reflexivity|]. split; [reflexivity|].
    intros r. simpl. rewrite filter_In, on_or_after_spec. tauto.
  - repeat (split; [reflexivity|]).
    eexists. split; [cbv; reflexivity|]. split; reflexivity.
Qed.

Lemma filter_dates_keeps_recent_witness :
  exists out parsed,
    returned (filter_dates mid_june 7) june_rows = Ok out /\
    parse_dates june_rows = Ok parsed /\
    Forall2 (fun r0 r => exists v, to_date (cell "date" r0) = Ok v /\
                                   r = set "date" v r0)
            (rows june_rows) (rows parsed) /\
    columns out = columns parsed /\
    rows out = filter (fun r => on_or_after (mid_june - 7) (cell "date" r))
                      (rows parsed) /\
    forall r, In r (rows out) <->
              In r (rows parsed) /\
              exists o, cell "date" r = VDate o /\ (mid_june - 7 <= o)%Z.
Proof.
  eexists.
  destruct (proj1 filter_dates_keeps_recent mid_june 7%Z june_rows _ eq_refl)
    as [parsed H].
  exists parsed. split; [reflexivity | exact H].
Defined.

(** C8.  With today held fixed, filtering the output of [filter_dates]
    again with the same cutoff returns that output. *)
Theorem filter_dates_idempotent today cutoff d out :
  returned (filter_dates today cutoff) d = Ok out ->
  returned (filter_dates today cutoff) out = Ok out.
Proof.
  intros H. unfold returned in *. rewrite filter_dates_run in H.
  unfold get_column in H.
  destruct (has_column "date" d) eqn:Hc; [|discriminate].
  destruct (parse_dates d) as [parsed|] eqn:Ep; [|discriminate].
  destruct (minus_days today cutoff) as [bound|] eqn:Eb; [|discriminate].
  destruct (comparable parsed); [|discriminate].
  simpl in H. inversion H; subst out; clear H.
  set (keep := fun r => on_or_after bound (cell "date" r)).
  assert (Hcol : has_column "date" (filter_rows keep parsed) = true).
  { unfold has_column; simpl. rewrite (parse_dates_columns _ _ Hc Ep). exact Hc. }
  assert (Hfix : parse_dates (filter_rows keep parsed) = Ok (filter_rows keep parsed)).
  { apply assign_fixed; [exact Hcol|].
    intros r Hr. simpl in Hr. apply filter_In in Hr as [Hin Hk].
    unfold keep in Hk. apply on_or_after_spec in Hk as [o [Ho _]].
    destruct (assign_in _ _ _ _ _ Ep Hin) as [r0 [v [_ [Hv ->]]]].
    rewrite cell_set_same in *. subst v.
    split; [exact (to_date_again _ _ Hv)|].
    simpl. apply lookup_set_same. }
  rewrite filter_dates_run. unfold get_column. rewrite Hcol, Hfix, Eb.
  unfold keep at 1. rewrite comparable_selected. simpl.
  unfold filter_rows; simpl. fold keep. now rewrite filter_twice.
Qed.

Lemma filter_dates_idempotent_witness :
  exists out, returned (filter_dates mid_june 7) june_rows = Ok out /\
              returned (filter_dates mid_june 7) out = Ok out.
Proof.
  eexists. split; [cbv; reflexivity|].
  apply (filter_dates_idempotent mid_june 7%Z june_rows). reflexivity.
Defined.

(** ** The loop of reindex_options, in closed form *)

Lemma lookup_tabulate (g : string -> value) c cols :
  In c cols -> lookup c (map (fun k => (k, g k)) cols) = Some (g c).
Proof.
  induction cols as [|k cols IH]; simpl; [contradiction|].
  intros H. destruct (String.eqb k c) eqn:E.
  - apply String.eqb_eq in E. now subst.
  - destruct H as [->|H]; [now rewrite String.eqb_refl in E | auto].
Qed.

Lemma map_fixed {A : Type} (f : A -> A) l :
  (forall a, In a l -> f a = a) -> map f l = l.
Proof.
  intros H. rewrite <- (map_id l) at 2. apply map_ext_in. exact H.
Qed.

Section Loop.
Variables options d : DataFrame.

Lemma label_written k r : label (written options d k r) = label r.
Proof. unfold written. now destruct (_ && _)%bool. Qed.

Lemma ensure_written k r :
  ensure "option_id" (written options d k r) = written options d k r.
Proof. unfold written. destruct (_ && _)%bool; apply ensure_set. Qed.

Lemma cell_written k r c :
  c <> "option_id" -> cell c (written options d k r) = cell c r.
Proof.
  intros H. unfold written.
  destruct (_ && _)%bool; apply cell_set_other; congruence.
Qed.

Lemma ensure_enlarged i :
  ensure "option_id" (enlarged options d i) = enlarged options d i.
Proof.
  unfold ensure, enlarged; simpl.
  rewrite (lookup_tabulate
             (fun c => if String.eqb c "option_id"
                       then int (chosen options d i) else VNaN)).
  - reflexivity.
  - apply In_add_column. now right.
Qed.

Lemma add_column_after k :
  add_column "option_id" (after_turns options d k) = add_column "option_id" d.
Proof.
  unfold add_column at 1.
  replace (has_column "option_id" (after_turns options d k)) with true;
    [reflexivity|].
  symmetry. apply has_column_In. simpl. apply In_add_column. now right.
Qed.

Lemma labelled_after k :
  existsb (fun r => (label r =? Z.of_nat k)%Z) (rows (after_turns options d k))
  = negb (unlabelled d k).
Proof.
  unfold unlabelled. rewrite negb_involutive.
  apply eq_iff_eq_true. rewrite !existsb_exists. simpl. split.
  - intros [r [Hin Hl]]. apply in_app_or in Hin as [Hin|Hin].
    + apply in_map_iff in Hin as [r0 [<- H0]].
      exists r0. now rewrite label_written in Hl.
    + apply in_map_iff in Hin as [i [<- Hi]].
      apply filter_In in Hi as [Hi _]. apply in_seq in Hi.
      simpl in Hl. apply Z.eqb_eq in Hl. lia.
  - intros [r0 [H0 Hl]]. exists (written options d k r0). split.
    + apply in_or_app. left. now apply in_map.
    + now rewrite label_written.
Qed.

Lemma filter_seq_S k :
  filter (unlabelled d) (seq 0 (S k))
  = filter (unlabelled d) (seq 0 k) ++ (if unlabelled d k then [k] else []).
Proof. rewrite seq_S, filter_app. reflexivity. Qed.

Lemma written_S k r :
  label r <> Z.of_nat k -> written options d (S k) r = written options d k r.
Proof.
  intros H. unfold written.
  replace (label r <? Z.of_nat (S k))%Z with (label r <? Z.of_nat k)%Z;
    [reflexivity|].
  apply eq_iff_eq_true. rewrite !Z.ltb_lt. lia.
Qed.

Lemma written_S_at k r :
  label r = Z.of_nat k ->
  written options d (S k) r
  = set "option_id" (int (chosen options d k)) (written options d k r).
Proof.
  intros H. unfold written. rewrite H, Nat2Z.id.
  replace ((0 <=? Z.of_nat k) && (Z.of_nat k <? Z.of_nat (S k)))%Z with true
    by (symmetry; apply andb_true_iff; rewrite Z.leb_le, Z.ltb_lt; lia).
  replace ((0 <=? Z.of_nat k) && (Z.of_nat k <? Z.of_nat k))%Z with false
    by (symmetry; apply andb_false_iff; right; apply Z.ltb_ge; lia).
  now rewrite set_twice.
Qed.

(** One turn: the write by label. *)
Lemma turn_writes k :
  at_set (Z.of_nat k) "option_id" (int (chosen options d k))
         (after_turns options d k)
  = after_turns options d (S k).
Proof.
  unfold at_set. rewrite labelled_after, add_column_after.
  unfold after_turns at 3. rewrite filter_seq_S.
  destruct (unlabelled d k) eqn:U; simpl; f_equal.
  - rewrite map_fixed.
    + rewrite (map_app (enlarged options d)), app_assoc. f_equal. f_equal.
      apply map_ext_in. intros r Hr. symmetry. apply written_S.
      unfold unlabelled in U. apply negb_true_iff in U.
      intros E. apply (eq_true_false_abs _ (proj2 (existsb_exists _ _)
        (ex_intro _ r (conj Hr (proj2 (Z.eqb_eq _ _) E)))) U).
    + intros r Hr. apply in_app_or in Hr as [Hr|Hr];
        apply in_map_iff in Hr as [x [<- _]];
        [apply ensure_written | apply ensure_enlarged].
  - rewrite !map_app, app_nil_r. f_equal.
    + rewrite map_map. apply map_ext. intros r.
      rewrite label_written.
      destruct (label r =? Z.of_nat k)%Z eqn:E.
      * apply Z.eqb_eq in E. now rewrite written_S_at.
      * apply Z.eqb_neq in E. now rewrite ensure_written, written_S.
    + rewrite map_fixed; [reflexivity|].
      intros r Hr. apply in_map_iff in Hr as [i [<- Hi]].
      apply filter_In in Hi as [Hi _]. apply in_seq in Hi. simpl.
      replace (Z.of_nat i =? Z.of_nat k)%Z with false
        by (symmetry; apply Z.eqb_neq; lia).
      apply ensure_enlarged.
Qed.

Lemma has_ad_id_after k :
  has_column "ad_id" (after_turns options d k) = has_column "ad_id" d.
Proof.
  apply eq_iff_eq_true. rewrite !has_column_In. simpl.
  rewrite In_add_column. split; [intros [H|H]; [assumption | discriminate] | tauto].
Qed.

(** One turn: the read by position. *)
Lemma turn_reads k :
  (k < List.length (rows d))%nat ->
  option_at options (after_turns options d k) k = option_at options d k.
Proof.
  intros Hk. unfold option_at, iloc. rewrite has_ad_id_after. simpl.
  rewrite nth_error_app1 by (rewrite length_map; exact Hk).
  rewrite nth_error_map.
  destruct (nth_error (rows d) k) as [r|]; simpl; [|reflexivity].
  now rewrite cell_written by discriminate.
Qed.

Lemma first_turn :
  set_all "option_id" (int 0) d = after_turns options d 0.
Proof.
  unfold set_all, after_turns. simpl. rewrite app_nil_r. f_equal.
  apply map_ext. intros r. unfold written.
  replace ((0 <=? label r) && (label r <? Z.of_nat 0))%Z with false;
    [reflexivity|].
  symmetry. apply andb_false_iff. rewrite Z.leb_gt, Z.ltb_ge. lia.
Qed.

Lemma loop_step k rest :
  (k < List.length (rows d))%nat ->
  assign_option_ids options (k :: rest) (after_turns options d k)
  = match option_at options d k with
    | Ok _ => assign_option_ids options rest (after_turns options d (S k))
    | Raise e => (after_turns options d k, Raise e)
    end.
Proof.
  intros Hk. simpl. unfold bind, get, lift, modify.
  rewrite (turn_reads k Hk).
  destruct (option_at options d k) as [o|e] eqn:E; [|reflexivity].
  replace o with (chosen options d k) by (unfold chosen; now rewrite E).
  now rewrite turn_writes.
Qed.

Lemma loop_ok m : forall k,
  (k + m <= List.length (rows d))%nat ->
  (forall i, (k <= i < k + m)%nat -> exists o, option_at options d i = Ok o) ->
  assign_option_ids options (seq k m) (after_turns options d k)
  = (after_turns options d (k + m), Ok tt).
Proof.
  induction m as [|m IH]; intros k Hk Hall.
  - simpl. now rewrite Nat.add_0_r.
  - simpl seq. rewrite loop_step by lia.
    destruct (Hall k) as [o ->]; [lia|].
    rewrite IH; [now rewrite Nat.add_succ_r | lia |].
    intros i Hi. apply Hall. lia.
Qed.

Lemma loop_inv m : forall k s u,
  (k + m <= List.length (rows d))%nat ->
  assign_option_ids options (seq k m) (after_turns options d k) = (s, Ok u) ->
  forall i, (k <= i < k + m)%nat -> exists o, option_at options d i = Ok o.
Proof.
  induction m as [|m IH]; intros k s u Hk Hrun i Hi; [lia|].
  simpl seq in Hrun. rewrite loop_step in Hrun by lia.
  destruct (option_at options d k) as [o|e] eqn:E; [|discriminate].
  destruct (Nat.eq_dec i k) as [->|Hne]; [eauto|].
  apply (IH (S k) s u); [lia | exact Hrun | lia].
Qed.
End Loop.

(** ** reindex_options as a whole *)

Lemma reindex_options_run d :
  reindex_options d =
  match build_options d with
  | Raise e => (d, Raise e)
  | Ok options =>
      match assign_option_ids options (seq 0 (List.length (rows d)))
                              (after_turns options d 0) with
      | (s, Ok _) => (s, Ok (options, s))
      | (s, Raise e) => (s, Raise e)
      end
  end.
Proof.
  unfold reindex_options, bind, get, lift, modify, ret.
  destruct (build_options d) as [options|e]; [|reflexivity].
  rewrite (first_turn options d). simpl rows. rewrite app_nil_r, length_map.
  destruct (assign_option_ids _ _ _) as [s [u|e]]; reflexivity.
Qed.

(** A call that returns has run every turn of the loop, and hands back
    the caller's own frame. *)
Lemma reindex_options_ok d options d' :
  returned reindex_options d = Ok (options, d') ->
  build_options d = Ok options /\
  d' = after_turns options d (List.length (rows d)) /\
  caller_frame reindex_options d = d' /\
  forall i, (i < List.length (rows d))%nat ->
            exists o, option_at options d i = Ok o.
Proof.
  unfold returned, caller_frame. rewrite reindex_options_run.
  destruct (build_options d) as [opts|e]; [|discriminate].
  destruct (assign_option_ids _ _ _) as [s [u|e]] eqn:E; [|discriminate].
  simpl. intros H. inversion H; subst opts s; clear H.
  assert (Hall : forall i, (i < List.length (rows d))%nat ->
                           exists o, option_at options d i = Ok o).
  { intros i Hi. apply (loop_inv options d _ 0 _ _ (le_n _) E). lia. }
  split; [reflexivity|]. split; [|split; [reflexivity | exact Hall]].
  rewrite (loop_ok options d _ 0 (le_n _)) in E.
  - now inversion E.
  - intros i Hi. apply Hall. lia.
Qed.

Lemma option_at_inv options d i o r :
  nth_error (rows d) i = Some r -> option_at options d i = Ok o ->
  first_label (cell "ad_id" r) (rows options) = Ok o.
Proof.
  intros Hn. unfold option_at, get_column, iloc. rewrite Hn.
  destruct (has_column "ad_id" options); simpl; [|discriminate].
  destruct (has_column "ad_id" d); simpl; [tauto | discriminate].
Qed.

Lemma Forall2_map_positions {A B : Type} (P : A -> B -> Prop) (f : A -> B) l :
  (forall i a, nth_error l i = Some a -> P a (f a)) -> Forall2 P l (map f l).
Proof.
  induction l as [|a l IH]; simpl; intros H; constructor.
  - exact (H 0%nat a eq_refl).
  - apply IH. intros i b Hb. exact (H (S i) b Hb).
Qed.

Lemma range_label rs k : forall i r,
  map label rs = map Z.of_nat (seq k (List.length rs)) ->
  nth_error rs i = Some r -> label r = Z.of_nat (k + i).
Proof.
  revert k. induction rs as [|r0 rs IH]; intros k i r H Hn.
  - destruct i; discriminate.
  - simpl in H. inversion H as [[H0 H1]]. destruct i as [|i]; simpl in Hn.
    + inversion Hn; subst. now rewrite Nat.add_0_r.
    + rewrite (IH (S k) i r H1 Hn). f_equal. lia.
Qed.

Lemma off_range rs : forall k,
  map label rs = map Z.of_nat (seq k (List.length rs)) \/
  exists i r, nth_error rs i = Some r /\ label r <> Z.of_nat (k + i).
Proof.
  induction rs as [|r0 rs IH]; intros k; [now left|].
  destruct (Z.eq_dec (label r0) (Z.of_nat k)) as [E|N].
  - destruct (IH (S k)) as [H|[i [r [Hn Hl]]]].
    + left. simpl. now rewrite E, H.
    + right. exists (S i), r. split; [exact Hn|].
      now replace (k + S i)%nat with (S k + i)%nat by lia.
  - right. exists 0%nat, r0. split; [reflexivity|]. now rewrite Nat.add_0_r.
Qed.

Lemma written_in_range options d k r i :
  label r = Z.of_nat i -> (i < k)%nat ->
  written options d k r = set "option_id" (int (chosen options d i)) r.
Proof.
  intros Hl Hi. unfold written. rewrite Hl, Nat2Z.id.
  replace ((0 <=? Z.of_nat i) && (Z.of_nat i <? Z.of_nat k))%Z with true;
    [reflexivity|].
  symmetry. apply andb_true_iff. rewrite Z.leb_le, Z.ltb_lt. lia.
Qed.

Lemma labelled_position d i :
  unlabelled d i = false ->
  exists j r, nth_error (rows d) j = Some r /\ label r = Z.of_nat i.
Proof.
  unfold unlabelled. intros H. apply negb_false_iff in H.
  apply existsb_exists in H as [r [Hin Hl]]. apply Z.eqb_eq in Hl.
  apply In_nth_error in Hin as [j Hj]. eauto.
Qed.

(** ** The options table covers every row *)

Lemma same_value_refl v : same_value v v = true.
Proof.
  destruct v; simpl; auto using String.eqb_refl, Z.eqb_refl.
  apply Qeq_bool_iff. reflexivity.
Qed.

Lemma same_value_trans a b c :
  same_value a b = true -> same_value b c = true -> same_value a c = true.
Proof.
  destruct a, b, c; simpl; try discriminate; auto.
  - rewrite !Qeq_bool_iff. intros H1 H2. now rewrite H1.
  - rewrite !String.eqb_eq. congruence.
  - rewrite !Z.eqb_eq. congruence.
Qed.

Lemma same_cells_refl r : same_cells r r = true.
Proof.
  induction r as [|[k v] r IH]; simpl; [reflexivity|].
  now rewrite String.eqb_refl, same_value_refl, IH.
Qed.

Lemma same_cells_trans a : forall b c,
  same_cells a b = true -> same_cells b c = true -> same_cells a c = true.
Proof.
  induction a as [|[k1 v1] a IH]; intros [|[k2 v2] b] [|[k3 v3] c]; simpl;
    try discriminate; auto.
  rewrite !andb_true_iff, !String.eqb_eq.
  intros [[E1 V1] S1] [[E2 V2] S2]. repeat split.
  - congruence.
  - exact (same_value_trans _ _ _ V1 V2).
  - exact (IH _ _ S1 S2).
Qed.

Lemma same_cells_lookup c a : forall b,
  same_cells a b = true ->
  forall y, lookup c b = Some y ->
            exists x, lookup c a = Some x /\ same_value x y = true.
Proof.
  induction a as [|[k1 v1] a IH]; intros [|[k2 v2] b]; simpl; try discriminate.
  rewrite !andb_true_iff, String.eqb_eq. intros [[E V] S] y. subst k2.
  destruct (String.eqb k1 c).
  - intros H; inversion H; subst. eauto.
  - apply IH. exact S.
Qed.

Lemma keep_first_covers rs : forall seen r,
  In r rs ->
  (exists k, In k (keep_first seen rs) /\ same_cells (cells k) (cells r) = true)
  \/ (exists s, In s seen /\ same_cells (cells s) (cells r) = true).
Proof.
  induction rs as [|r1 rs IH]; intros seen r Hin; [contradiction|].
  simpl. destruct (existsb (fun s => same_cells (cells s) (cells r1)) seen) eqn:E.
  - apply existsb_exists in E as [s1 [Hs1 S1]].
    destruct Hin as [->|Hin]; [right; eauto|].
    destruct (IH (r1 :: seen) r Hin) as [L|[s [[->|Hs] S]]]; eauto.
    right. exists s1. split; [assumption|]. exact (same_cells_trans _ _ _ S1 S).
  - destruct Hin as [->|Hin].
    + left. exists r. split; [now left | apply same_cells_refl].
    + destruct (IH (r1 :: seen) r Hin) as [[k [Hk S]]|[s [[->|Hs] S]]].
      * left. exists k. split; [now right | exact S].
      * left. exists s. split; [now left | exact S].
      * right. eauto.
Qed.

Lemma relabel_in name k rs : forall i,
  In k rs ->
  exists l, In (mkRow l ((name, VNum (inject_Z (label k))) :: cells k))
               (relabel name i rs).
Proof.
  induction rs as [|r rs IH]; intros i Hin; [contradiction|].
  destruct Hin as [->|Hin]; simpl.
  - exists i. now left.
  - destruct (IH (i + 1)%Z Hin) as [l Hl]. exists l. now right.
Qed.

Lemma same_eq x y :
  same_value x y = true -> y <> VNaN -> eq_value x y = true.
Proof. destruct x, y; simpl; auto; try discriminate; tauto. Qed.

Lemma first_label_total x rs :
  (exists o, In o rs /\ eq_value (cell "ad_id" o) x = true) ->
  exists l, first_label x rs = Ok l.
Proof.
  induction rs as [|r rs IH]; intros [o [Hin E]]; [contradiction|].
  simpl. destruct (eq_value (cell "ad_id" r) x) eqn:Er; [eauto|].
  destruct Hin as [->|Hin]; [congruence | eauto].
Qed.

Lemma drop_column_row c d r :
  In r (rows d) -> In (mkRow (label r) (del_cell c (cells r))) (rows (drop_column c d)).
Proof. intros H. simpl. now apply (in_map (fun r => mkRow (label r) (del_cell c (cells r)))). Qed.

Lemma build_options_total d :
  normalized d ->
  exists options,
    build_options d = Ok options /\ has_column "ad_id" options = true /\
    forall r, In r (rows d) ->
      exists o, In o (rows options) /\
                eq_value (cell "ad_id" o) (cell "ad_id" r) = true.
Proof.
  intros [Ha [Hd [Ht [Hs [Hi Hid]]]]].
  unfold build_options, drop_columns. simpl forallb. rewrite Hd, Ht, Hs. simpl.
  set (combos := drop_column "successes"
                   (drop_column "trials" (drop_column "date" d))).
  assert (Hci : has_column "index" combos = false).
  { destruct (has_column "index" combos) eqn:E; [|reflexivity].
    unfold combos in E. rewrite !has_column_drop in E. intuition congruence. }
  assert (Hca : In "ad_id" (columns combos)).
  { apply has_column_In. unfold combos. rewrite !has_column_drop.
    repeat split; try assumption; discriminate. }
  unfold reset_index.
  replace (has_column "index" (drop_duplicates combos)) with false by
    (symmetry; exact Hci).
  replace (has_column "index" (drop_duplicates combos)) with false by
    (symmetry; exact Hci). simpl.
  eexists. split; [reflexivity|]. split.
  - apply has_column_In. simpl. apply filter_In. split; [exact Hca | reflexivity].
  - intros r Hr.
    pose proof (drop_column_row "successes" _ _
                  (drop_column_row "trials" _ _
                     (drop_column_row "date" _ _ Hr))) as Hrc.
    fold combos in Hrc. simpl label in Hrc. simpl cells in Hrc.
    set (rc := mkRow (label r)
                 (del_cell "successes"
                    (del_cell "trials" (del_cell "date" (cells r))))) in Hrc.
    destruct (keep_first_covers (rows combos) [] rc Hrc)
      as [[k [Hk S]]|[s [[] _]]].
    destruct (relabel_in "index" k _ 0%Z Hk) as [l Hl].
    exists (mkRow l (del_cell "index"
                       (("index", VNum (inject_Z (label k))) :: cells k))).
    split.
    + simpl. apply (in_map (fun r => mkRow (label r) (del_cell "index" (cells r)))) in Hl.
      exact Hl.
    + assert (Ec : lookup "ad_id" (cells rc) = lookup "ad_id" (cells r)).
      { unfold rc; simpl. now rewrite !lookup_del_other by discriminate. }
      pose proof (Hid r Hr) as Hnan.
      destruct (lookup "ad_id" (cells r)) as [y|] eqn:Ey;
        [|unfold cell in Hnan; rewrite Ey in Hnan; tauto].
      destruct (same_cells_lookup "ad_id" _ _ S y Ec) as [x [Ex V]].
      unfold cell at 1 2. simpl cells.
      rewrite lookup_del_other by discriminate. simpl lookup.
      rewrite Ex, Ey. apply same_eq; [exact V|].
      unfold cell in Hnan. now rewrite Ey in Hnan.
Qed.

Lemma filter_none {A : Type} (p : A -> bool) l :
  (forall a, In a l -> p a = false) -> filter p l = [].
Proof.
  induction l as [|a l IH]; simpl; intros H; [reflexivity|].
  rewrite (H a) by now left. apply IH. intros b Hb. apply H. now right.
Qed.

Lemma chosen_found options d i o :
  option_at options d i = Ok o -> chosen options d i = o.
Proof. unfold chosen. now intros ->. Qed.

Lemma reindex_options_total d :
  normalized d ->
  exists options d', returned reindex_options d = Ok (options, d').
Proof.
  intros Hn. destruct (build_options_total d Hn) as [options [Hb [Ha Hcov]]].
  destruct Hn as [Had [_ [_ [_ [_ Hid]]]]].
  assert (Hall : forall i, (0 <= i < 0 + List.length (rows d))%nat ->
                           exists o, option_at options d i = Ok o).
  { intros i Hi. unfold option_at, get_column, iloc. rewrite Ha, Had. simpl.
    destruct (nth_error (rows d) i) as [r|] eqn:En.
    - simpl. apply first_label_total. apply Hcov.
      exact (nth_error_In _ _ En).
    - apply nth_error_None in En. lia. }
  exists options, (after_turns options d (List.length (rows d))).
  unfold returned. rewrite reindex_options_run, Hb.
  now rewrite (loop_ok options d _ 0 (le_n _) Hall).
Qed.

(** ** Claims about [reindex_options] *)

(** C10.  The loop of [reindex_options] reads the row at position [i] and
    writes the row labelled [i].  When the labels are 0, 1, ..., n-1 in
    order, a call that returns has given every row the option found for
    that row's own identifier, and a call on a frame with the documented
    columns and identifiers does return.  When the labels are anything
    else, a call that returns has added a row, or has written into a row
    the option found for the identifier of the row at another position;
    otherwise it has raised. *)
Theorem reindex_options_needs_range_index :
  (forall d options d',
     labels d = range_index (List.length (rows d)) ->
     returned reindex_options d = Ok (options, d') ->
     Forall2 (fun r r' =>
                exists o, first_label (cell "ad_id" r) (rows options) = Ok o /\
                          r' = set "option_id" (int o) r)
             (rows d) (rows d'))
  /\ (forall d, labels d = range_index (List.length (rows d)) ->
                normalized d ->
                exists options d', returned reindex_options d = Ok (options, d'))
  /\ (forall d options d',
        labels d <> range_index (List.length (rows d)) ->
        returned reindex_options d = Ok (options, d') ->
        (List.length (rows d) < List.length (rows d'))%nat \/
        exists i j ri rj rj' o,
          i <> j /\ nth_error (rows d) i = Some ri /\
          nth_error (rows d) j = Some rj /\ label rj = Z.of_nat i /\
          first_label (cell "ad_id" ri) (rows options) = Ok o /\
          nth_error (rows d') j = Some rj' /\
          cell "option_id" rj' = int o).
Proof.
  split; [|split].
  - intros d options d' Hl Hrun.
    destruct (reindex_options_ok _ _ _ Hrun) as [_ [-> [_ Hall]]].
    unfold labels, range_index in Hl. simpl.
    rewrite filter_none, app_nil_r.
    + apply Forall2_map_positions. intros i r Hi.
      assert (Hlt : (i < List.length (rows d))%nat)
        by (apply nth_error_Some; congruence).
      pose proof (range_label _ 0 _ _ Hl Hi) as Hr. simpl in Hr.
      destruct (Hall i Hlt) as [o Ho]. exists o.
      split; [exact (option_at_inv _ _ _ _ _ Hi Ho)|].
      rewrite (written_in_range _ _ _ _ i Hr Hlt).
      now rewrite (chosen_found _ _ _ _ Ho).
    + intros i Hi. apply in_seq in Hi.
      destruct (nth_error (rows d) i) as [r|] eqn:En;
        [|apply nth_error_None in En; lia].
      pose proof (range_label _ 0 _ _ Hl En) as Hr. simpl in Hr.
      unfold unlabelled. apply negb_false_iff. apply existsb_exists.
      exists r. split; [exact (nth_error_In _ _ En) | now apply Z.eqb_eq].
  - intros d _ Hn. now apply reindex_options_total.
  - intros d options d' Hl Hrun.
    destruct (reindex_options_ok _ _ _ Hrun) as [_ [-> [_ Hall]]].
    destruct (off_range (rows d) 0) as [E|[i [ri [Hi Hne]]]];
      [exfalso; apply Hl; exact E|].
    simpl in Hne.
    assert (Hlt : (i < List.length (rows d))%nat)
      by (apply nth_error_Some; congruence).
    destruct (unlabelled d i) eqn:U.
    + left. simpl. rewrite length_app, !length_map.
      assert (Hin : In i (filter (unlabelled d) (seq 0 (List.length (rows d))))).
      { apply filter_In. split; [apply in_seq; lia | exact U]. }
      destruct (filter (unlabelled d) (seq 0 (List.length (rows d))));
        [contradiction | simpl; lia].
    + right. destruct (labelled_position d i U) as [j [rj [Hj Hlj]]].
      destruct (Hall i Hlt) as [o Ho].
      exists i, j, ri, rj, (written options d (List.length (rows d)) rj), o.
      split; [intros ->; rewrite Hi in Hj; inversion Hj; subst; tauto|].
      split; [exact Hi|]. split; [exact Hj|]. split; [exact Hlj|].
      split; [exact (option_at_inv _ _ _ _ _ Hi Ho)|]. split.
      * simpl. rewrite nth_error_app1.
        -- now rewrite nth_error_map, Hj.
        -- rewrite length_map. apply nth_error_Some. congruence.
      * rewrite (written_in_range _ _ _ _ i Hlj Hlt), cell_set_same.
        now rewrite (chosen_found _ _ _ _ Ho).
Qed.

Lemma reindex_options_needs_range_index_witness :
  (exists options d',
     returned reindex_options june_rows = Ok (options, d') /\
     Forall2 (fun r r' =>
                exists o, first_label (cell "ad_id" r) (rows options) = Ok o /\
                          r' = set "option_id" (int o) r)
             (rows june_rows) (rows d'))
  /\ (exists options d', returned reindex_options june_rows = Ok (options, d'))
  /\ (exists options d',
        returned reindex_options after_drop = Ok (options, d') /\
        ((List.length (rows after_drop) < List.length (rows d'))%nat \/
         exists i j ri rj rj' o,
           i <> j /\ nth_error (rows after_drop) i = Some ri /\
           nth_error (rows after_drop) j = Some rj /\ label rj = Z.of_nat i /\
           first_label (cell "ad_id" ri) (rows options) = Ok o /\
           nth_error (rows d') j = Some rj' /\
           cell "option_id" rj' = int o)).
Proof.
  split; [|split].
  - eexists. eexists. split; [cbv; reflexivity|].
    apply (proj1 reindex_options_needs_range_index june_rows);
      reflexivity.
  - apply (proj1 (proj2 reindex_options_needs_range_index) june_rows).
    + reflexivity.
    + repeat (split; [reflexivity|]).
      intros r Hr. each_row Hr; discriminate.
  - eexists. eexists. split; [cbv; reflexivity|].
    apply (proj2 (proj2 reindex_options_needs_range_index) after_drop).
    + discriminate.
    + reflexivity.
Defined.

(** C4, on the output of [preprocess].  Of three ads the first spent
    nothing: [preprocess] returns the rows labelled 1 and 2.  On that
    frame [reindex_options] finds the options (7 is option 0, 8 is option
    1), but the row of 7 is given option 1, the row of 8 keeps the initial
    0, and a row labelled 0 without identifier is added. *)
Theorem reindex_options_after_drop :
  exists out options d',
    returned (preprocess None None None None) three_ads = Ok out /\
    labels out = [1; 2]%Z /\
    map (cell "ad_id") (rows out) = [int 7; int 8] /\
    returned reindex_options out = Ok (options, d') /\
    map label (rows options) = [0; 1]%Z /\
    map (cell "ad_id") (rows options) = [int 7; int 8] /\
    map label (rows d') = [1; 2; 0]%Z /\
    map (cell "ad_id") (rows d') = [int 7; int 8; VNaN] /\
    map (cell "option_id") (rows d') = [int 1; int 0; int 0].
Proof.
  eexists. eexists. eexists. split; [cbv; reflexivity|].
  split; [reflexivity|]. split; [reflexivity|].
  split; [cbv; reflexivity|].
  repeat split; reflexivity.
Qed.

(** ** What the caller's frame looks like after a call *)

Lemma labels_map_columns f d : labels (map_columns f d) = labels d.
Proof. unfold labels, map_columns; simpl. rewrite map_map. reflexivity. Qed.

Lemma labels_drop_column c d : labels (drop_column c d) = labels d.
Proof. unfold labels, drop_column; simpl. rewrite map_map. reflexivity. Qed.

Lemma labels_canonicalize d : labels (canonicalize d) = labels d.
Proof.
  unfold canonicalize, rename.
  repeat match goal with
         | |- context [if ?b then _ else _] => destruct b
         end;
    repeat (rewrite ?labels_drop_column, ?labels_map_columns); reflexivity.
Qed.

Lemma labels_assign c f d d' : assign c f d = Ok d' -> labels d' = labels d.
Proof.
  intros H. apply assign_rows in H as [_ H]. unfold labels.
  induction H as [|r r' l l' [v [_ ->]] _ IH]; simpl; [reflexivity|].
  now rewrite IH.
Qed.

(** C9, amended.  No stage leaves the caller's table as it was.
    [preprocess] renames and drops the caller's columns in place, keeping
    the row labels, and computes the rest on new frames.  [filter_dates]
    overwrites the caller's date column with the parsed dates, keeping
    column names and row labels, and selects the rows on a new frame.
    [reindex_options] sets the column option_id of the caller's table, and
    the table it returns is the caller's table itself. *)
Theorem stages_update_caller_frame :
  (forall iw ew cw vw d,
     caller_frame (preprocess iw ew cw vw) d = canonicalize d /\
     labels (canonicalize d) = labels d)
  /\ (forall today cutoff d out,
        returned (filter_dates today cutoff) d = Ok out ->
        exists parsed,
          parse_dates d = Ok parsed /\
          caller_frame (filter_dates today cutoff) d = parsed /\
          columns parsed = columns d /\ labels parsed = labels d)
  /\ (forall d options d',
        returned reindex_options d = Ok (options, d') ->
        caller_frame reindex_options d = d' /\
        has_column "option_id" d' = true).
Proof.
  split; [|split].
  - intros iw ew cw vw d. unfold caller_frame. rewrite preprocess_run.
    split; [reflexivity | apply labels_canonicalize].
  - intros today cutoff d out. unfold returned, caller_frame.
    rewrite filter_dates_run. unfold get_column.
    destruct (has_column "date" d) eqn:Hc; [|discriminate].
    destruct (parse_dates d) as [parsed|] eqn:Ep; [|discriminate].
    destruct (minus_days today cutoff); [|discriminate].
    destruct (comparable parsed); [|discriminate].
    intros _. exists parsed. split; [reflexivity|]. split; [reflexivity|].
    split; [exact (parse_dates_columns _ _ Hc Ep) | exact (labels_assign _ _ _ _ Ep)].
  - intros d options d' Hrun.
    destruct (reindex_options_ok _ _ _ Hrun) as [_ [-> [Hc _]]].
    split; [exact Hc|]. apply has_column_In. simpl.
    apply In_add_column. now right.
Qed.

Lemma stages_update_caller_frame_witness :
  (exists parsed,
     parse_dates june_rows = Ok parsed /\
     caller_frame (filter_dates mid_june 7) june_rows = parsed /\
     columns parsed = columns june_rows /\ labels parsed = labels june_rows)
  /\ (exists d', caller_frame reindex_options june_rows = d' /\
                 has_column "option_id" d' = true).
Proof.
  split.
  - eapply (proj1 (proj2 stages_update_caller_frame) mid_june 7%Z june_rows).
    reflexivity.
  - eexists.
    eapply (proj2 (proj2 stages_update_caller_frame) june_rows).
    reflexivity.
Defined.

(** C9 as stated fails for each stage: after the call the caller's table
    has other column names ([preprocess]), other date cells
    ([filter_dates]), one column more ([reindex_options]). *)
Lemma stages_mutate_caller_frame :
  (columns (caller_frame (preprocess None None None None) facebook_export)
   = ["ad_id"; "date"; "cost"; "impressions"; "engagements"; "clicks";
      "conversions"]
   /\ caller_frame (preprocess None None None None) facebook_export
      <> facebook_export)
  /\ (map (cell "date") (rows (caller_frame (filter_dates mid_june 7) june_rows))
      = [VDate 739045; VDate 739044; VDate 741078]
      /\ caller_frame (filter_dates mid_june 7) june_rows <> june_rows)
  /\ (columns (caller_frame reindex_options june_rows)
      = ["ad_id"; "date"; "successes"; "trials"; "option_id"]
      /\ caller_frame reindex_options june_rows <> june_rows).
Proof.
  split; [|split]; (split; [reflexivity|]); intros H.
  - apply (f_equal columns) in H. cbv in H. discriminate.
  - apply (f_equal (fun d => map (cell "date") (rows d))) in H.
    cbv in H. discriminate.
  - apply (f_equal columns) in H. cbv in H. discriminate.
Qed.

(** ** Further properties of [preprocess] *)

Lemma subseq_refl {A : Type} (l : list A) : subseq l l.
Proof. induction l; constructor; assumption. Qed.

Lemma subseq_trans {A : Type} (l1 l2 l3 : list A) :
  subseq l1 l2 -> subseq l2 l3 -> subseq l1 l3.
Proof.
  intros H12 H23. revert l1 H12.
  induction H23 as [|a l2 l3 _ IH|a l2 l3 _ IH]; intros l1 H12.
  - exact H12.
  - constructor. now apply IH.
  - inversion H12; subst; constructor; now apply IH.
Qed.

Lemma subseq_filter_map {A B : Type} (f : A -> B) (p : A -> bool) l :
  subseq (map f (filter p l)) (map f l).
Proof.
  induction l as [|a l IH]; simpl; [constructor|].
  destruct (p a); simpl; constructor; exact IH.
Qed.

Lemma subseq_In {A : Type} (l l' : list A) a : subseq l l' -> In a l -> In a l'.
Proof.
  induction 1 as [|b l l' _ IH|b l l' _ IH]; simpl; intuition.
Qed.

Lemma labels_replace_empty d : labels (replace_empty d) = labels d.
Proof. unfold labels, replace_empty; simpl. now rewrite map_map. Qed.

Lemma labels_fill_metrics cs : forall d d',
  fill_metrics cs d = Ok d' -> labels d' = labels d.
Proof.
  induction cs as [|c cs IH]; simpl; intros d d' H.
  - now inversion H.
  - unfold fillna in H. destruct (has_column c d); simpl in H; [|discriminate].
    rewrite (IH _ _ H). unfold labels; simpl. now rewrite map_map.
Qed.

Lemma labels_drop_fold cs : forall d,
  labels (fold_left (fun acc c => drop_column c acc) cs d) = labels d.
Proof.
  induction cs as [|c cs IH]; simpl; intros d; [reflexivity|].
  now rewrite IH, labels_drop_column.
Qed.

Lemma labels_drop_columns cs d d' :
  drop_columns cs d = Ok d' -> labels d' = labels d.
Proof.
  unfold drop_columns. destruct (forallb _ cs); [|discriminate].
  intros H; inversion H. apply labels_drop_fold.
Qed.

Lemma active_labels d a : active d = Ok a -> subseq (labels a) (labels d).
Proof.
  unfold active, active_rows.
  destruct (fill_metrics metric_columns (replace_empty d)) as [f|] eqn:E;
    simpl; [|discriminate].
  intros H; inversion H; subst; clear H.
  rewrite <- (labels_replace_empty d), <- (labels_fill_metrics _ _ _ E).
  apply subseq_filter_map.
Qed.

Lemma derive_labels w a out : derive w a = Ok out -> subseq (labels out) (labels a).
Proof.
  unfold derive.
  destruct (assign "successes" (successes_of w) a) as [d1|] eqn:E1; simpl; [|discriminate].
  destruct (assign "trials" trials_of d1) as [d2|] eqn:E2; simpl; [|discriminate].
  destruct (drop_columns metric_columns d2) as [d3|] eqn:E3; simpl; [|discriminate].
  intros H; inversion H; subst; clear H.
  rewrite <- (labels_assign _ _ _ _ E1), <- (labels_assign _ _ _ _ E2),
    <- (labels_drop_columns _ _ _ E3).
  apply subseq_filter_map.
Qed.

Lemma prepare_inv iw ew cw vw d out :
  prepare iw ew cw vw d = Ok out ->
  exists a w, active d = Ok a /\ resolve_weights iw ew cw vw a = Ok w /\
              derive w a = Ok out.
Proof.
  unfold prepare.
  destruct (active d) as [a|]; simpl; [|discriminate].
  destruct (resolve_weights iw ew cw vw a) as [w|] eqn:Ew; simpl; [|discriminate].
  intros H. exists a, w. auto.
Qed.

Lemma preprocess_inv iw ew cw vw d out :
  returned (preprocess iw ew cw vw) d = Ok out ->
  exists a w, active (canonicalize d) = Ok a /\
              resolve_weights iw ew cw vw a = Ok w /\ derive w a = Ok out.
Proof.
  unfold returned. rewrite preprocess_run. simpl. apply prepare_inv.
Qed.

(** X1.  [preprocess] returns rows of its input under their old labels and
    in their old order: the labels of the output are the labels of the
    input with some left out (the index is not reset). *)
Theorem preprocess_keeps_labels iw ew cw vw d out :
  returned (preprocess iw ew cw vw) d = Ok out ->
  subseq (labels out) (labels d).
Proof.
  intros H. destruct (preprocess_inv _ _ _ _ _ _ H) as [a [w [Ea [_ Ed]]]].
  apply (subseq_trans _ (labels a)); [exact (derive_labels _ _ _ Ed)|].
  rewrite <- (labels_canonicalize d). exact (active_labels _ _ Ea).
Qed.

Lemma preprocess_keeps_labels_witness :
  exists out, returned (preprocess None None None None) three_ads = Ok out /\
              labels out = [1; 2]%Z /\
              subseq (labels out) (labels three_ads).
Proof.
  eexists. split; [cbv; reflexivity|]. split; [reflexivity|].
  apply (preprocess_keeps_labels None None None None three_ads). reflexivity.
Defined.

Lemma same_label_same_row rs : forall r1 r2,
  NoDup (map label rs) -> In r1 rs -> In r2 rs -> label r1 = label r2 -> r1 = r2.
Proof.
  induction rs as [|r rs IH]; intros r1 r2 Hnd H1 H2 Hl; [contradiction|].
  simpl in Hnd. inversion Hnd as [|? ? Hnot Hnd']; subst.
  destruct H1 as [->|H1], H2 as [->|H2]; auto.
  - exfalso. apply Hnot. rewrite Hl. now apply in_map.
  - exfalso. apply Hnot. rewrite <- Hl. now apply in_map.
Qed.

Lemma no_spend_filled v :
  no_spend v -> ne_zero (fill_zero (blank_to_nan v)) = false.
Proof.
  destruct v as [q|s| |]; simpl; intros H; try contradiction.
  - apply negb_false_iff. now apply Qeq_bool_iff.
  - subst. reflexivity.
  - reflexivity.
Qed.

(** X2.  An ad without spend is not in the output: when the labels of the
    input are pairwise distinct, the label of a row whose cost is zero,
    empty or missing is the label of no returned row. *)
Theorem preprocess_drops_zero_cost iw ew cw vw d out r0 :
  NoDup (labels d) ->
  returned (preprocess iw ew cw vw) d = Ok out ->
  In r0 (rows (canonicalize d)) -> no_spend (cell "cost" r0) ->
  ~ In (label r0) (labels out).
Proof.
  intros Hnd H Hr0 Hz Hin.
  destruct (preprocess_inv _ _ _ _ _ _ H) as [a [w [Ea [_ Ed]]]].
  apply in_map_iff in Hin as [r' [Hl Hr']].
  destruct (derive_in _ _ _ _ Ed Hr') as [r [c [s [Hr [Hlr _]]]]].
  destruct (active_in _ _ _ Ea Hr) as [Hne [r1 [H1 [Hl1 [Hy _]]]]].
  assert (r1 = r0).
  { apply (same_label_same_row (rows (canonicalize d))); auto.
    - fold (labels (canonicalize d)). now rewrite labels_canonicalize.
    - congruence. }
  subst r1. rewrite (Hy "cost") in Hne by (simpl; auto).
  rewrite (no_spend_filled _ Hz) in Hne. discriminate.
Qed.

Lemma preprocess_drops_zero_cost_witness :
  exists out, returned (preprocess None None None None) three_ads = Ok out /\
              ~ In 0%Z (labels out).
Proof.
  eexists. split; [cbv; reflexivity|].
  apply (preprocess_drops_zero_cost None None None None three_ads _
           (mkRow 0 (combine report_columns
                       [int 6; VStr "2024-06-08"; int 0; int 100; int 0;
                        int 0; int 0]))).
  - repeat constructor; simpl; intuition discriminate.
  - reflexivity.
  - left. reflexivity.
  - reflexivity.
Defined.

Lemma lookup_of_key c cs :
  In c (map fst cs) -> exists v, lookup c cs = Some v /\ In (c, v) cs.
Proof.
  induction cs as [|[k x] cs IH]; simpl; [contradiction|].
  intros H. destruct (String.eqb k c) eqn:E.
  - apply String.eqb_eq in E. subst. eauto.
  - destruct H as [->|H]; [now rewrite String.eqb_refl in E|].
    destruct (IH H) as [v [Hv Hin]]. eauto.
Qed.

Lemma derive_dropna w a out :
  derive w a = Ok out -> exists d3, out = dropna d3 /\
    exists d1 d2, assign "successes" (successes_of w) a = Ok d1 /\
                  assign "trials" trials_of d1 = Ok d2 /\
                  drop_columns metric_columns d2 = Ok d3.
Proof.
  unfold derive.
  destruct (assign "successes" (successes_of w) a) as [d1|] eqn:E1; simpl; [|discriminate].
  destruct (assign "trials" trials_of d1) as [d2|] eqn:E2; simpl; [|discriminate].
  destruct (drop_columns metric_columns d2) as [d3|] eqn:E3; simpl; [|discriminate].
  intros H; inversion H; subst. exists d3. split; [reflexivity|].
  exists d1, d2. auto.
Qed.

(** X3.  The table that [preprocess] returns has no missing value: every
    cell that a returned row carries, in whatever column, holds a value
    (line 77 drops the rows where one is missing). *)
Theorem preprocess_output_complete iw ew cw vw d out :
  returned (preprocess iw ew cw vw) d = Ok out ->
  forall r c, In r (rows out) -> In c (map fst (cells r)) -> cell c r <> VNaN.
Proof.
  intros H r c Hr Hc.
  destruct (preprocess_inv _ _ _ _ _ _ H) as [a [w [_ [_ Ed]]]].
  destruct (derive_dropna _ _ _ Ed) as [d3 [-> _]].
  simpl in Hr. apply filter_In in Hr as [_ Hall].
  destruct (lookup_of_key _ _ Hc) as [v [Hv Hin]].
  unfold cell. rewrite Hv.
  rewrite forallb_forall in Hall. specialize (Hall _ Hin). simpl in Hall.
  intros ->. discriminate.
Qed.

Lemma preprocess_output_complete_witness :
  exists out, returned (preprocess None None None None) three_ads = Ok out /\
    forall r c, In r (rows out) -> In c (map fst (cells r)) -> cell c r <> VNaN.
Proof.
  eexists. split; [cbv; reflexivity|].
  apply (preprocess_output_complete None None None None three_ads). reflexivity.
Defined.

Lemma columns_drop_fold cs : forall d c,
  In c (columns (fold_left (fun acc c => drop_column c acc) cs d))
  <-> In c (columns d) /\ ~ In c cs.
Proof.
  induction cs as [|c0 cs IH]; simpl; intros d c; [tauto|].
  rewrite IH. simpl. rewrite filter_In, negb_true_iff, String.eqb_neq.
  intuition congruence.
Qed.

(** X4.  The columns of the returned table: the columns of the canonical
    input other than cost, impressions, engagements, clicks and
    conversions pass through, and successes and trials are there. *)
Theorem preprocess_output_columns iw ew cw vw d out :
  returned (preprocess iw ew cw vw) d = Ok out ->
  forall c, In c (columns out) <->
            (In c (columns (canonicalize d)) /\ ~ In c metric_columns)
            \/ c = "successes" \/ c = "trials".
Proof.
  intros H c.
  destruct (preprocess_inv _ _ _ _ _ _ H) as [a [w [Ea [_ Ed]]]].
  destruct (derive_dropna _ _ _ Ed) as [d3 [-> [d1 [d2 [E1 [E2 E3]]]]]].
  simpl columns. unfold drop_columns in E3.
  destruct (forallb _ metric_columns); [|discriminate].
  inversion E3; subst d3; clear E3.
  etransitivity; [exact (columns_drop_fold metric_columns d2 c)|].
  rewrite (proj1 (assign_rows _ _ _ _ E2)), In_add_column.
  rewrite (proj1 (assign_rows _ _ _ _ E1)), In_add_column.
  rewrite (active_columns _ _ Ea), in_metric_columns.
  split.
  - intros [[[Hc|Hc]|Hc] Hn]; auto.
  - intros [[Hc Hn]|[E|E]]; [auto | subst c; split; [auto|] ..];
      intuition discriminate.
Qed.

Lemma preprocess_output_columns_witness :
  exists out, returned (preprocess None None None None) facebook_export = Ok out /\
    columns out = ["ad_id"; "date"; "successes"; "trials"] /\
    forall c, In c (columns out) <->
              (In c (columns (canonicalize facebook_export))
               /\ ~ In c metric_columns)
              \/ c = "successes" \/ c = "trials".
Proof.
  eexists. split; [cbv; reflexivity|]. split; [reflexivity|].
  apply (preprocess_output_columns None None None None facebook_export).
  reflexivity.
Defined.

(** *** The caller's column names after [preprocess] *)

Lemma standardize_char_plain a :
  plain_char (if Ascii.eqb (lower_ascii a) " " then "_"%char else lower_ascii a)
  = true.
Proof. destruct a as [[] [] [] [] [] [] [] []]; reflexivity. Qed.

Lemma standardize_plain s : string_forall plain_char (standardize s) = true.
Proof.
  unfold standardize. induction s as [|a s IH]; simpl; [reflexivity|].
  now rewrite standardize_char_plain, IH.
Qed.

Lemma filter_all {A : Type} (p : A -> bool) l :
  (forall a, In a l -> p a = true) -> filter p l = l.
Proof.
  induction l as [|a l IH]; simpl; intros H; [reflexivity|].
  rewrite (H a) by now left. f_equal. apply IH. intros b Hb. apply H. now right.
Qed.

Lemma columns_drop_if c d :
  columns (if has_column c d then drop_column c d else d)
  = filter (fun k => negb (String.eqb k c)) (columns d).
Proof.
  destruct (has_column c d) eqn:E; [reflexivity|].
  symmetry. apply filter_all. intros k Hk.
  apply negb_true_iff, String.eqb_neq. intros ->.
  apply has_column_In in Hk. congruence.
Qed.

Lemma absent_rename_same old new d :
  old <> new -> ~ In old (columns (rename old new d)).
Proof.
  intros Hne H. simpl in H. apply in_map_iff in H as [k [E _]].
  destruct (String.eqb k old) eqn:Ek; [congruence|].
  apply String.eqb_neq in Ek. congruence.
Qed.

Lemma absent_rename_other old new c d :
  new <> c -> ~ In c (columns d) -> ~ In c (columns (rename old new d)).
Proof.
  intros Hne Habs H. simpl in H. apply in_map_iff in H as [k [E Hk]].
  destruct (String.eqb k old); congruence.
Qed.

Lemma absent_drop_if c d :
  ~ In c (columns (if has_column c d then drop_column c d else d)).
Proof.
  rewrite columns_drop_if, filter_In, negb_true_iff, String.eqb_neq. tauto.
Qed.

Lemma absent_drop_if_other c c' d :
  ~ In c (columns d) ->
  ~ In c (columns (if has_column c' d then drop_column c' d else d)).
Proof. rewrite columns_drop_if, filter_In. tauto. Qed.

Lemma plain_rename old new d :
  string_forall plain_char new = true ->
  Forall (fun c => string_forall plain_char c = true) (columns d) ->
  Forall (fun c => string_forall plain_char c = true) (columns (rename old new d)).
Proof.
  intros Hn H. simpl. apply Forall_map. eapply Forall_impl; [|exact H].
  intros k Hk. simpl. now destruct (String.eqb k old).
Qed.

Lemma plain_drop_if c d :
  Forall (fun c => string_forall plain_char c = true) (columns d) ->
  Forall (fun c => string_forall plain_char c = true)
         (columns (if has_column c d then drop_column c d else d)).
Proof.
  intros H. rewrite columns_drop_if. rewrite Forall_forall in *.
  intros k Hk. apply filter_In in Hk. now apply H.
Qed.

Ltac absent_name :=
  repeat first
    [ apply absent_drop_if
    | apply absent_rename_same; discriminate
    | apply absent_drop_if_other
    | apply absent_rename_other; [discriminate|] ].

(** X5.  Whatever the names of the input columns, after a call of
    [preprocess] the columns of the caller's table have names without
    spaces and capital letters, and none of them is one of the export
    names that the function renames or drops. *)
Theorem preprocess_canonical_names iw ew cw vw d c :
  In c (columns (caller_frame (preprocess iw ew cw vw) d)) ->
  string_forall plain_char c = true /\ ~ In c export_names.
Proof.
  unfold caller_frame. rewrite preprocess_run. simpl fst. intros Hc. split.
  - revert c Hc. apply Forall_forall.
    unfold canonicalize. cbv zeta.
    apply plain_drop_if. apply plain_rename; [reflexivity|].
    apply plain_drop_if.
    do 5 (apply plain_rename; [reflexivity|]).
    simpl. apply Forall_map. apply Forall_forall. intros k _.
    apply standardize_plain.
  - intros Hx. revert Hc. unfold canonicalize. cbv zeta.
    simpl in Hx. repeat (destruct Hx as [<-|Hx]); [absent_name .. | contradiction].
Qed.

Lemma preprocess_canonical_names_witness :
  string_forall plain_char "cost" = true /\ ~ In "cost" export_names.
Proof.
  apply (preprocess_canonical_names None None None None facebook_export "cost").
  cbv. tauto.
Defined.

(** *** Inferred weights *)





(** ** Further properties of [filter_dates] *)

Lemma filter_dates_inv today cutoff d out :
  returned (filter_dates today cutoff) d = Ok out ->
  exists parsed,
    has_column "date" d = true /\ parse_dates d = Ok parsed /\
    minus_days today cutoff = Ok (today - cutoff)%Z /\
    out = filter_rows (fun r => on_or_after (today - cutoff) (cell "date" r))
                      parsed.
Proof.
  unfold returned. rewrite filter_dates_run. unfold get_column.
  destruct (has_column "date" d); [|discriminate].
  destruct (parse_dates d) as [parsed|]; [|discriminate].
  destruct (minus_days today cutoff) as [bound|] eqn:Eb; [|discriminate].
  destruct (comparable parsed); [|discriminate].
  simpl. intros H; inversion H; subst out; clear H.
  pose proof (minus_days_inv _ _ _ Eb) as ->.
  exists parsed. auto.
Qed.

(** X7.  [filter_dates] returns rows of its input under their old labels,
    in their old order and with the same columns: the index is not
    reset. *)
Theorem filter_dates_keeps_labels today cutoff d out :
  returned (filter_dates today cutoff) d = Ok out ->
  columns out = columns d /\ subseq (labels out) (labels d).
Proof.
  intros H.
  destruct (filter_dates_inv _ _ _ _ H) as [parsed [Hc [Ep [_ ->]]]].
  split.
  - simpl. exact (parse_dates_columns _ _ Hc Ep).
  - rewrite <- (labels_assign _ _ _ _ Ep). apply subseq_filter_map.
Qed.

Lemma filter_dates_keeps_labels_witness :
  exists out, returned (filter_dates mid_june 7) june_rows = Ok out /\
              columns out = columns june_rows /\
              subseq (labels out) (labels june_rows).
Proof.
  eexists. split; [cbv; reflexivity|].
  apply (filter_dates_keeps_labels mid_june 7%Z june_rows). reflexivity.
Defined.

Lemma subseq_filter_imp {A : Type} (p q : A -> bool) l :
  (forall a, p a = true -> q a = true) -> subseq (filter p l) (filter q l).
Proof.
  intros H. induction l as [|a l IH]; simpl; [constructor|].
  destruct (p a) eqn:Ep.
  - rewrite (H _ Ep). now constructor.
  - destruct (q a); [now constructor | exact IH].
Qed.

Lemma on_or_after_mono b1 b2 v :
  (b2 <= b1)%Z -> on_or_after b1 v = true -> on_or_after b2 v = true.
Proof.
  intros Hb. rewrite !on_or_after_spec. intros [o [-> Ho]].
  exists o. split; [reflexivity | lia].
Qed.

(** X8.  A wider window loses no row: with the same today, the rows
    returned for a cutoff are among the rows returned for any larger
    cutoff, in the same order. *)
Theorem filter_dates_wider_window today c1 c2 d out1 out2 :
  (c1 <= c2)%Z ->
  returned (filter_dates today c1) d = Ok out1 ->
  returned (filter_dates today c2) d = Ok out2 ->
  subseq (rows out1) (rows out2).
Proof.
  intros Hc H1 H2.
  destruct (filter_dates_inv _ _ _ _ H1) as [p1 [_ [E1 [_ ->]]]].
  destruct (filter_dates_inv _ _ _ _ H2) as [p2 [_ [E2 [_ ->]]]].
  rewrite E1 in E2. inversion E2; subst p2. simpl.
  apply subseq_filter_imp. intros r. apply on_or_after_mono. lia.
Qed.

Lemma filter_dates_wider_window_witness :
  exists out1 out2,
    returned (filter_dates mid_june 7) june_rows = Ok out1 /\
    returned (filter_dates mid_june 8) june_rows = Ok out2 /\
    subseq (rows out1) (rows out2).
Proof.
  eexists. eexists. split; [cbv; reflexivity|]. split; [cbv; reflexivity|].
  apply (filter_dates_wider_window mid_june 7%Z 8%Z june_rows).
  - lia.
  - reflexivity.
  - reflexivity.
Defined.

(** The rows that pass a date bound are parsed already: parsing them
    again changes nothing. *)
Lemma parse_dates_selected d parsed bound :
  has_column "date" d = true -> parse_dates d = Ok parsed ->
  parse_dates (filter_rows (fun r => on_or_after bound (cell "date" r)) parsed)
  = Ok (filter_rows (fun r => on_or_after bound (cell "date" r)) parsed).
Proof.
  intros Hc Ep. apply assign_fixed.
  - unfold has_column; simpl. rewrite (parse_dates_columns _ _ Hc Ep). exact Hc.
  - intros r Hr. simpl in Hr. apply filter_In in Hr as [Hin Hk].
    apply on_or_after_spec in Hk as [o [Ho _]].
    destruct (assign_in _ _ _ _ _ Ep Hin) as [r0 [v [_ [Hv ->]]]].
    rewrite cell_set_same in *. subst v.
    split; [exact (to_date_again _ _ Hv)|].
    simpl. apply lookup_set_same.
Qed.

Lemma filter_filter_imp {A : Type} (p q : A -> bool) l :
  (forall a, p a = true -> q a = true) ->
  filter q (filter p l) = filter p l /\ filter p (filter q l) = filter p l.
Proof.
  intros H. induction l as [|a l [IH1 IH2]]; simpl; [auto|].
  destruct (p a) eqn:Ep.
  - rewrite (H _ Ep). simpl. rewrite Ep, (H _ Ep), IH1, IH2. auto.
  - destruct (q a) eqn:Eq; simpl; rewrite ?Ep, ?IH1, ?IH2; auto.
Qed.

(** X9.  Two filters compose to the narrower one, in either order: for
    cutoffs [c1 <= c2] and the same today, filtering the output for [c1]
    with [c2], or the output for [c2] with [c1], returns the output for
    [c1]. *)
Theorem filter_dates_compose today c1 c2 d out1 out2 :
  (c1 <= c2)%Z ->
  returned (filter_dates today c1) d = Ok out1 ->
  returned (filter_dates today c2) d = Ok out2 ->
  returned (filter_dates today c2) out1 = Ok out1 /\
  returned (filter_dates today c1) out2 = Ok out1.
Proof.
  intros Hc H1 H2.
  destruct (filter_dates_inv _ _ _ _ H1) as [p1 [Hd [E1 [B1 ->]]]].
  destruct (filter_dates_inv _ _ _ _ H2) as [p2 [_ [E2 [B2 ->]]]].
  rewrite E1 in E2. inversion E2; subst p2; clear E2.
  assert (Himp : forall r : Row,
             on_or_after (today - c1) (cell "date" r) = true ->
             on_or_after (today - c2) (cell "date" r) = true).
  { intros r. apply on_or_after_mono. lia. }
  destruct (filter_filter_imp _ _ (rows p1) Himp) as [F1 F2].
  assert (Hcol : forall b, has_column "date"
                   (filter_rows (fun r => on_or_after b (cell "date" r)) p1) = true).
  { intros b. unfold has_column; simpl.
    rewrite (parse_dates_columns _ _ Hd E1). exact Hd. }
  unfold returned. rewrite !filter_dates_run. unfold get_column.
  rewrite !Hcol, !(parse_dates_selected _ _ _ Hd E1), B1, B2.
  rewrite !comparable_selected. simpl.
  unfold filter_rows; simpl. now rewrite F1, F2.
Qed.

Lemma filter_dates_compose_witness :
  exists out1 out2,
    returned (filter_dates mid_june 7) june_rows = Ok out1 /\
    returned (filter_dates mid_june 8) june_rows = Ok out2 /\
    returned (filter_dates mid_june 8) out1 = Ok out1 /\
    returned (filter_dates mid_june 7) out2 = Ok out1.
Proof.
  eexists. eexists. split; [cbv; reflexivity|]. split; [cbv; reflexivity|].
  apply (filter_dates_compose mid_june 7%Z 8%Z june_rows).
  - lia.
  - reflexivity.
  - reflexivity.
Defined.





(** ** Further properties of [reindex_options] *)

Lemma relabel_labels name rs : forall k,
  map label (relabel name (Z.of_nat k) rs)
  = map Z.of_nat (seq k (List.length rs)).
Proof.
  induction rs as [|r rs IH]; intros k; simpl; [reflexivity|].
  f_equal. replace (Z.of_nat k + 1)%Z with (Z.of_nat (S k)) by lia. apply IH.
Qed.

Lemma relabel_length name rs : forall i,
  List.length (relabel name i rs) = List.length rs.
Proof. induction rs as [|r rs IH]; intros i; simpl; [reflexivity | now rewrite IH]. Qed.

Lemma drop_columns_single c f :
  has_column c f = true -> drop_columns [c] f = Ok (drop_column c f).
Proof. intros H. unfold drop_columns. simpl. now rewrite H. Qed.

Lemma build_options_inv d options :
  build_options d = Ok options ->
  exists name,
    options = drop_column "index"
                (mkFrame (name :: columns (drop_column "successes"
                                    (drop_column "trials" (drop_column "date" d))))
                   (relabel name 0
                      (keep_first [] (rows (drop_column "successes"
                                       (drop_column "trials"
                                          (drop_column "date" d))))))) /\
    (name = "index" \/ name = "level_0") /\
    has_column "date" d = true /\ has_column "trials" d = true /\
    has_column "successes" d = true /\
    (has_column "index" d = false -> name = "index").
Proof.
  unfold build_options.
  destruct (drop_columns ["date"; "trials"; "successes"] d) as [combos|] eqn:Ec;
    cbn [rbind]; [|discriminate].
  unfold drop_columns in Ec. simpl forallb in Ec.
  destruct (has_column "date" d) eqn:Hd; simpl in Ec; [|discriminate].
  destruct (has_column "trials" d) eqn:Ht; simpl in Ec; [|discriminate].
  destruct (has_column "successes" d) eqn:Hs; simpl in Ec; [|discriminate].
  injection Ec as Ec.
  change (drop_column "successes" (drop_column "trials" (drop_column "date" d))
          = combos) in Ec.
  rewrite Ec.
  assert (Hi : has_column "index" combos = true -> has_column "index" d = true).
  { intros H. rewrite <- Ec in H. rewrite !has_column_drop in H. tauto. }
  unfold reset_index.
  change (has_column "index" (drop_duplicates combos))
    with (has_column "index" combos).
  destruct (has_column "index" combos) eqn:Ei.
  - destruct (has_column "level_0" (drop_duplicates combos)); cbn [rbind];
      [discriminate|].
    rewrite drop_columns_single.
    + intros H; injection H as <-. exists "level_0". repeat split; auto.
      intros Hf. rewrite (Hi eq_refl) in Hf. discriminate.
    + apply has_column_In. right. now apply has_column_In.
  - change (has_column "index" (drop_duplicates combos))
      with (has_column "index" combos). rewrite Ei. cbn [rbind].
    rewrite drop_columns_single.
    + intros H; injection H as <-. exists "index". repeat split; auto.
    + apply has_column_In. now left.
Qed.

Lemma build_options_labels d options :
  build_options d = Ok options ->
  labels options = range_index (List.length (rows options)).
Proof.
  intros H. destruct (build_options_inv _ _ H) as [name [-> _]].
  rewrite labels_drop_column. unfold labels, range_index. simpl rows.
  rewrite length_map, relabel_length.
  exact (relabel_labels name _ 0).
Qed.

(** X11.  The options are numbered 0, 1, 2, ... in the order of the
    options table, whatever the labels of the input are. *)
Theorem reindex_options_dense_ids d options d' :
  returned reindex_options d = Ok (options, d') ->
  labels options = range_index (List.length (rows options)).
Proof.
  intros H. destruct (reindex_options_ok _ _ _ H) as [Hb _].
  exact (build_options_labels _ _ Hb).
Qed.

Lemma reindex_options_dense_ids_witness :
  exists options d',
    returned reindex_options after_drop = Ok (options, d') /\
    labels options = range_index (List.length (rows options)).
Proof.
  eexists. eexists. split; [cbv; reflexivity|].
  apply (reindex_options_dense_ids after_drop _ _ eq_refl).
Defined.

(** With the default index every row is written from its own
    identifier. *)
Lemma reindex_rows_range d options d' :
  labels d = range_index (List.length (rows d)) ->
  returned reindex_options d = Ok (options, d') ->
  forall r', In r' (rows d') ->
    exists r o, In r (rows d) /\
                first_label (cell "ad_id" r) (rows options) = Ok o /\
                r' = set "option_id" (int o) r.
Proof.
  intros Hl Hrun r' Hr'.
  destruct (reindex_options_ok _ _ _ Hrun) as [_ [-> [_ Hall]]].
  unfold labels, range_index in Hl. simpl in Hr'.
  rewrite filter_none, app_nil_r in Hr'.
  - apply in_map_iff in Hr' as [r [<- Hr]].
    destruct (In_nth_error _ _ Hr) as [i Hi].
    assert (Hlt : (i < List.length (rows d))%nat)
      by (apply nth_error_Some; congruence).
    pose proof (range_label _ 0 _ _ Hl Hi) as Hlab. simpl in Hlab.
    destruct (Hall i Hlt) as [o Ho]. exists r, o.
    split; [exact Hr|]. split; [exact (option_at_inv _ _ _ _ _ Hi Ho)|].
    rewrite (written_in_range _ _ _ _ i Hlab Hlt).
    now rewrite (chosen_found _ _ _ _ Ho).
  - intros i Hi. apply in_seq in Hi.
    destruct (nth_error (rows d) i) as [r|] eqn:En;
      [|apply nth_error_None in En; lia].
    pose proof (range_label _ 0 _ _ Hl En) as Hr. simpl in Hr.
    unfold unlabelled. apply negb_false_iff. apply existsb_exists.
    exists r. split; [exact (nth_error_In _ _ En) | now apply Z.eqb_eq].
Qed.

Lemma first_label_inv x rs : forall l,
  first_label x rs = Ok l ->
  exists k r, nth_error rs k = Some r /\ label r = l /\
              eq_value (cell "ad_id" r) x = true /\
              forall j rj, (j < k)%nat -> nth_error rs j = Some rj ->
                           eq_value (cell "ad_id" rj) x = false.
Proof.
  induction rs as [|r rs IH]; simpl; intros l H; [discriminate|].
  destruct (eq_value (cell "ad_id" r) x) eqn:E.
  - inversion H; subst. exists 0%nat, r. repeat split; auto. intros; lia.
  - destruct (IH _ H) as [k [r1 [Hn [Hl [He Hfirst]]]]].
    exists (S k), r1. repeat split; auto.
    intros [|j] rj Hj Hnj; simpl in Hnj.
    + inversion Hnj; subst. exact E.
    + apply (Hfirst j rj); [lia | exact Hnj].
Qed.

Lemma dense_position rs k r :
  map label rs = range_index (List.length rs) ->
  nth_error rs k = Some r -> label r = Z.of_nat k.
Proof. intros H Hn. exact (range_label rs 0 k r H Hn). Qed.

(** X12.  With the default index 0, 1, ..., the option_id that a call
    gives a row is a key into the options table: it is the position of an
    option whose ad_id equals the row's, and of the first such option. *)
Theorem reindex_options_foreign_key d options d' :
  labels d = range_index (List.length (rows d)) ->
  returned reindex_options d = Ok (options, d') ->
  forall r', In r' (rows d') ->
    exists k opt,
      cell "option_id" r' = int (Z.of_nat k) /\
      nth_error (rows options) k = Some opt /\ label opt = Z.of_nat k /\
      eq_value (cell "ad_id" opt) (cell "ad_id" r') = true /\
      forall j oj, (j < k)%nat -> nth_error (rows options) j = Some oj ->
                   eq_value (cell "ad_id" oj) (cell "ad_id" r') = false.
Proof.
  intros Hl Hrun r' Hr'.
  destruct (reindex_rows_range _ _ _ Hl Hrun r' Hr') as [r [o [_ [Ho ->]]]].
  destruct (reindex_options_ok _ _ _ Hrun) as [Hb _].
  pose proof (build_options_labels _ _ Hb) as Hdense.
  destruct (first_label_inv _ _ _ Ho) as [k [opt [Hn [Hlab [He Hfirst]]]]].
  pose proof (dense_position _ _ _ Hdense Hn) as Hk.
  exists k, opt. rewrite cell_set_same, cell_set_other by discriminate.
  repeat split; auto. congruence.
Qed.

Lemma reindex_options_foreign_key_witness :
  exists options d',
    returned reindex_options june_rows = Ok (options, d') /\
    forall r', In r' (rows d') ->
      exists k opt,
        cell "option_id" r' = int (Z.of_nat k) /\
        nth_error (rows options) k = Some opt /\ label opt = Z.of_nat k /\
        eq_value (cell "ad_id" opt) (cell "ad_id" r') = true /\
        forall j oj, (j < k)%nat -> nth_error (rows options) j = Some oj ->
                     eq_value (cell "ad_id" oj) (cell "ad_id" r') = false.
Proof.
  eexists. eexists. split; [cbv; reflexivity|].
  apply (reindex_options_foreign_key june_rows); reflexivity.
Defined.

Lemma eq_value_common a x y :
  eq_value a x = true -> eq_value a y = true -> eq_value x y = true.
Proof.
  destruct a, x, y; simpl; try discriminate.
  - rewrite !Qeq_bool_iff. intros H1 H2. now rewrite <- H1, <- H2.
  - rewrite !String.eqb_eq. congruence.
  - rewrite !Z.eqb_eq. congruence.
Qed.

Lemma eq_value_respects c x y :
  eq_value x y = true -> eq_value c x = eq_value c y.
Proof.
  destruct c, x, y; simpl; try discriminate; try reflexivity.
  - rewrite Qeq_bool_iff. intros H. apply eq_iff_eq_true.
    rewrite !Qeq_bool_iff. now rewrite H.
  - rewrite String.eqb_eq. now intros ->.
  - rewrite Z.eqb_eq. now intros ->.
Qed.

Lemma first_label_respects x y rs :
  eq_value x y = true -> first_label x rs = first_label y rs.
Proof.
  intros H. induction rs as [|r rs IH]; simpl; [reflexivity|].
  now rewrite (eq_value_respects _ _ _ H), IH.
Qed.

Lemma int_injective a b : int a = int b -> a = b.
Proof. unfold int, inject_Z. intros H. now inversion H. Qed.

(** X13.  With the default index, two rows of the returned table have the
    same option_id exactly when they have the same ad_id. *)
Theorem reindex_options_groups_by_ad d options d' r1 r2 :
  labels d = range_index (List.length (rows d)) ->
  returned reindex_options d = Ok (options, d') ->
  In r1 (rows d') -> In r2 (rows d') ->
  (cell "option_id" r1 = cell "option_id" r2
   <-> eq_value (cell "ad_id" r1) (cell "ad_id" r2) = true).
Proof.
  intros Hl Hrun H1 H2.
  destruct (reindex_rows_range _ _ _ Hl Hrun r1 H1) as [s1 [o1 [_ [F1 ->]]]].
  destruct (reindex_rows_range _ _ _ Hl Hrun r2 H2) as [s2 [o2 [_ [F2 ->]]]].
  destruct (reindex_options_ok _ _ _ Hrun) as [Hb _].
  pose proof (build_options_labels _ _ Hb) as Hdense.
  rewrite !cell_set_same, !cell_set_other by discriminate. split.
  - intros E. apply int_injective in E. subst o2.
    destruct (first_label_inv _ _ _ F1) as [k1 [p1 [N1 [L1 [E1 _]]]]].
    destruct (first_label_inv _ _ _ F2) as [k2 [p2 [N2 [L2 [E2 _]]]]].
    pose proof (dense_position _ _ _ Hdense N1) as K1.
    pose proof (dense_position _ _ _ Hdense N2) as K2.
    assert (k1 = k2) by lia. subst k2.
    rewrite N1 in N2. inversion N2; subst p2.
    exact (eq_value_common _ _ _ E1 E2).
  - intros E. rewrite (first_label_respects _ _ _ E) in F1.
    rewrite F1 in F2. now inversion F2.
Qed.

Lemma reindex_options_groups_by_ad_witness :
  exists options d' r1 r2,
    returned reindex_options june_rows = Ok (options, d') /\
    nth_error (rows d') 0 = Some r1 /\ nth_error (rows d') 1 = Some r2 /\
    (cell "option_id" r1 = cell "option_id" r2
     <-> eq_value (cell "ad_id" r1) (cell "ad_id" r2) = true).
Proof.
  eexists. eexists. eexists. eexists.
  split; [cbv; reflexivity|]. split; [reflexivity|]. split; [reflexivity|].
  eapply (reindex_options_groups_by_ad june_rows).
  - reflexivity.
  - reflexivity.
  - left. reflexivity.
  - right. left. reflexivity.
Defined.

(** *** The options table *)

Lemma keep_first_subseq rs : forall seen, subseq (keep_first seen rs) rs.
Proof.
  induction rs as [|r rs IH]; intros seen; simpl; [constructor|].
  destruct (existsb _ seen); constructor; apply IH.
Qed.

Lemma keep_first_fresh rs : forall seen k s,
  In k (keep_first seen rs) -> In s seen ->
  same_cells (cells s) (cells k) = false.
Proof.
  induction rs as [|r rs IH]; intros seen k s Hk Hs; [contradiction|].
  simpl in Hk.
  destruct (existsb (fun s => same_cells (cells s) (cells r)) seen) eqn:E.
  - apply (IH (r :: seen)); [exact Hk | now right].
  - destruct Hk as [<-|Hk].
    + destruct (same_cells (cells s) (cells r)) eqn:Es; [|reflexivity].
      rewrite <- E. symmetry. apply existsb_exists. eauto.
    + apply (IH (r :: seen)); [exact Hk | now right].
Qed.

Lemma keep_first_distinct rs : forall seen,
  ForallOrdPairs (fun a b => same_cells (cells a) (cells b) = false)
                 (keep_first seen rs).
Proof.
  induction rs as [|r rs IH]; intros seen; simpl; [constructor|].
  destruct (existsb _ seen); [apply IH|].
  constructor; [|apply IH].
  apply Forall_forall. intros k Hk.
  apply (keep_first_fresh rs (r :: seen)); [exact Hk | now left].
Qed.

Lemma subseq_map {A B : Type} (f : A -> B) l l' :
  subseq l l' -> subseq (map f l) (map f l').
Proof. induction 1; simpl; constructor; assumption. Qed.

Lemma ordered_pairs_map {A B : Type} (f : A -> B) (P : B -> B -> Prop) l :
  ForallOrdPairs (fun a b => P (f a) (f b)) l -> ForallOrdPairs P (map f l).
Proof.
  induction 1 as [|a l Ha _ IH]; simpl; constructor; [|exact IH].
  apply Forall_map. exact Ha.
Qed.

Lemma del_cell_absent c cs : ~ In c (map fst cs) -> del_cell c cs = cs.
Proof.
  intros H. unfold del_cell. apply filter_all. intros [k v] Hin.
  apply negb_true_iff, String.eqb_neq. simpl. intros ->.
  apply H. now apply (in_map fst) in Hin.
Qed.

Lemma del_cell_keys c cs k : In k (map fst (del_cell c cs)) -> In k (map fst cs).
Proof.
  unfold del_cell. intros H. apply in_map_iff in H as [[k' v] [<- Hin]].
  apply filter_In in Hin as [Hin _]. now apply (in_map fst) in Hin.
Qed.

Lemma relabel_index_cells rs : forall i,
  (forall k, In k rs -> ~ In "index" (map fst (cells k))) ->
  map cells (map (fun r => mkRow (label r) (del_cell "index" (cells r)))
                 (relabel "index" i rs))
  = map cells rs.
Proof.
  induction rs as [|r rs IH]; intros i H; simpl; [reflexivity|].
  rewrite IH by (intros; apply H; now right).
  f_equal. apply del_cell_absent. apply H. now left.
Qed.

(** X14.  On a well-formed table without a column named index, the
    options are identity rows of the input (its rows without date, trials
    and successes) in the order of the input, and no two options are
    equal. *)
Theorem reindex_options_distinct d options d' :
  well_formed d -> has_column "index" d = false ->
  returned reindex_options d = Ok (options, d') ->
  subseq (map cells (rows options)) (map identity_cells (rows d)) /\
  ForallOrdPairs (fun a b => same_cells a b = false) (map cells (rows options)).
Proof.
  intros [Hnd Hwf] Hi Hrun.
  destruct (reindex_options_ok _ _ _ Hrun) as [Hb _].
  destruct (build_options_inv _ _ Hb) as [name [-> [_ [_ [_ [_ Hname]]]]]].
  rewrite (Hname Hi). clear Hname.
  set (combos := rows (drop_column "successes"
                         (drop_column "trials" (drop_column "date" d)))).
  assert (Hc : map cells combos = map identity_cells (rows d)).
  { unfold combos. simpl. rewrite !map_map. reflexivity. }
  assert (Hkeys : forall k, In k (keep_first [] combos) ->
                            ~ In "index" (map fst (cells k))).
  { intros k Hk Hin.
    apply (subseq_In _ _ _ (keep_first_subseq combos [])) in Hk.
    apply (in_map cells) in Hk. rewrite Hc in Hk.
    apply in_map_iff in Hk as [r [Er Hr]]. rewrite <- Er in Hin.
    unfold identity_cells in Hin. do 3 apply del_cell_keys in Hin.
    rewrite Forall_forall in Hwf. rewrite (Hwf r Hr) in Hin.
    apply has_column_In in Hin. congruence. }
  simpl rows. rewrite (relabel_index_cells _ 0%Z Hkeys). split.
  - rewrite <- Hc. apply subseq_map. apply keep_first_subseq.
  - apply ordered_pairs_map. apply keep_first_distinct.
Qed.

Lemma reindex_options_distinct_witness :
  exists options d',
    returned reindex_options june_rows = Ok (options, d') /\
    subseq (map cells (rows options)) (map identity_cells (rows june_rows)) /\
    ForallOrdPairs (fun a b => same_cells a b = false)
                   (map cells (rows options)).
Proof.
  eexists. eexists. split; [cbv; reflexivity|].
  eapply (reindex_options_distinct june_rows).
  - split; [repeat constructor; simpl; intuition discriminate
           | repeat constructor].
  - reflexivity.
  - reflexivity.
Defined.

(** *** How the call fails *)

Lemma eq_value_nan a : eq_value a VNaN = false.
Proof. now destruct a. Qed.

Lemma first_label_nan rs : first_label VNaN rs = Raise IndexError.
Proof.
  induction rs as [|r rs IH]; simpl; [reflexivity|]. now rewrite eq_value_nan.
Qed.

Lemma first_label_raises x rs e : first_label x rs = Raise e -> e = IndexError.
Proof.
  induction rs as [|r rs IH]; simpl.
  - intros H; now inversion H.
  - destruct (eq_value (cell "ad_id" r) x); [discriminate | exact IH].
Qed.

Lemma build_options_ad_id d options :
  build_options d = Ok options ->
  has_column "ad_id" options = has_column "ad_id" d.
Proof.
  intros H. destruct (build_options_inv _ _ H) as [name [-> [Hname _]]].
  apply eq_iff_eq_true. rewrite has_column_drop. split.
  - intros [Hin _]. apply has_column_In in Hin. cbn [columns] in Hin.
    destruct Hin as [E|Hin]; [destruct Hname; subst; discriminate|].
    apply (proj2 (has_column_In _ _)) in Hin.
    rewrite !has_column_drop in Hin. tauto.
  - intros Hin. split; [|discriminate].
    apply has_column_In. cbn [columns]. right. apply has_column_In.
    rewrite !has_column_drop. repeat split; auto; discriminate.
Qed.

Lemma loop_raises options d (x : exn) m : forall k,
  (k + m <= List.length (rows d))%nat ->
  (forall i e, option_at options d i = Raise e -> e = x) ->
  (exists i e, (k <= i < k + m)%nat /\ option_at options d i = Raise e) ->
  exists j, assign_option_ids options (seq k m) (after_turns options d k)
            = (after_turns options d j, Raise x).
Proof.
  induction m as [|m IH]; intros k Hk Hall [i [e [Hi He]]]; [lia|].
  simpl seq. rewrite loop_step by lia.
  destruct (option_at options d k) as [o|e'] eqn:Ek.
  - apply IH; [lia | exact Hall |].
    exists i, e. split; [|exact He].
    destruct (Nat.eq_dec i k) as [->|Hne]; [congruence | lia].
  - exists k. now rewrite (Hall _ _ Ek).
Qed.

(** X15.  How [reindex_options] fails.  Without one of the columns date,
    trials and successes it raises [KeyError] and leaves the caller's
    table as it was.  Once the options are built the caller's table has
    its option_id column, and the loop can still fail: a row whose ad_id
    is missing makes the call raise [IndexError], and a table with rows
    but no ad_id column makes it raise [KeyError]. *)
Theorem reindex_options_failures d :
  (forall c, In c ["date"; "trials"; "successes"] -> has_column c d = false ->
             reindex_options d = (d, Raise KeyError))
  /\ (forall options,
        build_options d = Ok options -> has_column "ad_id" d = true ->
        (exists r, In r (rows d) /\ cell "ad_id" r = VNaN) ->
        returned reindex_options d = Raise IndexError /\
        has_column "option_id" (caller_frame reindex_options d) = true)
  /\ (forall options,
        build_options d = Ok options -> has_column "ad_id" d = false ->
        rows d <> [] ->
        returned reindex_options d = Raise KeyError /\
        has_column "option_id" (caller_frame reindex_options d) = true).
Proof.
  assert (Hopt : forall options j,
             has_column "option_id" (after_turns options d j) = true).
  { intros options j. apply has_column_In. simpl. apply In_add_column. now right. }
  split; [|split].
  - intros c Hc Habs. rewrite reindex_options_run.
    unfold build_options, drop_columns. simpl forallb.
    simpl in Hc. destruct Hc as [<-|[<-|[<-|[]]]]; rewrite Habs;
      rewrite ?andb_false_r; reflexivity.
  - intros options Hb Had [r [Hr Hnan]].
    pose proof (build_options_ad_id _ _ Hb) as Hoa. rewrite Had in Hoa.
    destruct (In_nth_error _ _ Hr) as [i Hi].
    assert (Hlt : (i < List.length (rows d))%nat)
      by (apply nth_error_Some; congruence).
    destruct (loop_raises options d IndexError (List.length (rows d)) 0)
      as [j Hj]; [lia | | |].
    + intros k e. unfold option_at, get_column, iloc. rewrite Hoa, Had. simpl.
      destruct (nth_error (rows d) k); simpl.
      * apply first_label_raises.
      * intros H; now inversion H.
    + exists i, IndexError. split; [lia|].
      unfold option_at, get_column, iloc. rewrite Hoa, Had, Hi. simpl.
      rewrite Hnan. apply first_label_nan.
    + unfold returned, caller_frame. rewrite reindex_options_run, Hb, Hj.
      simpl. split; [reflexivity | apply Hopt].
  - intros options Hb Had Hrows.
    pose proof (build_options_ad_id _ _ Hb) as Hoa. rewrite Had in Hoa.
    destruct (loop_raises options d KeyError (List.length (rows d)) 0)
      as [j Hj]; [lia | | |].
    + intros k e. unfold option_at, get_column. rewrite Hoa. simpl.
      intros H; now inversion H.
    + exists 0%nat, KeyError. split.
      * destruct (rows d); [congruence | simpl; lia].
      * unfold option_at, get_column. now rewrite Hoa.
    + unfold returned, caller_frame. rewrite reindex_options_run, Hb, Hj.
      simpl. split; [reflexivity | apply Hopt].
Qed.

Lemma reindex_options_failures_witness :
  reindex_options two_ads = (two_ads, Raise KeyError)
  /\ (returned reindex_options anonymous_row = Raise IndexError /\
      has_column "option_id" (caller_frame reindex_options anonymous_row) = true)
  /\ (returned reindex_options (drop_column "ad_id" june_rows) = Raise KeyError /\
      has_column "option_id"
        (caller_frame reindex_options (drop_column "ad_id" june_rows)) = true).
Proof.
  split; [|split].
  - apply (proj1 (reindex_options_failures two_ads) "trials");
      [simpl; tauto | reflexivity].
  - eapply (proj1 (proj2 (reindex_options_failures anonymous_row))).
    + cbv. reflexivity.
    + reflexivity.
    + eexists. split; [right; left; reflexivity | reflexivity].
  - eapply (proj2 (proj2 (reindex_options_failures
                            (drop_column "ad_id" june_rows)))).
    + cbv. reflexivity.
    + reflexivity.
    + discriminate.
Defined.

(** ** Calling [preprocess] again *)

Lemma keys_map_columns (f : string -> string) (cs : list (string * value)) :
  map fst (map (fun kv : string * value => (f (fst kv), snd kv)) cs)
  = map f (map fst cs).
Proof. rewrite !map_map. reflexivity. Qed.

Lemma names_map_columns f d : names (map_columns f d) = map f (names d).
Proof.
  unfold names, map_columns; simpl. rewrite map_app. f_equal.
  induction (rows d) as [|r rs IH]; simpl; [reflexivity|].
  now rewrite map_app, IH, keys_map_columns.
Qed.

Lemma names_drop_column c d k :
  In k (names (drop_column c d)) -> In k (names d).
Proof.
  unfold names, drop_column; simpl. rewrite !in_app_iff.
  intros [H|H].
  - left. apply filter_In in H. tauto.
  - right. apply in_flat_map in H as [r' [Hr' Hk]].
    apply in_map_iff in Hr' as [r [<- Hr]]. simpl in Hk.
    apply in_flat_map. exists r. split; [exact Hr|].
    exact (del_cell_keys _ _ _ Hk).
Qed.

Lemma names_drop_if c d k :
  In k (names (if has_column c d then drop_column c d else d)) -> In k (names d).
Proof. destruct (has_column c d); [apply names_drop_column | tauto]. Qed.

Lemma names_canonicalize d k :
  In k (names (canonicalize d)) -> exists s, k = canonical_name s.
Proof.
  unfold canonicalize. cbv zeta. intros H.
  apply names_drop_if in H. unfold rename at 1 in H.
  rewrite names_map_columns in H. apply in_map_iff in H as [k6 [<- H]].
  apply names_drop_if in H. unfold rename in H.
  repeat (rewrite names_map_columns in H;
          apply in_map_iff in H as [? [<- H]]).
  eexists. unfold canonical_name. cbv zeta. reflexivity.
Qed.

Lemma standardize_char_fixed a :
  plain_char a = true ->
  (if Ascii.eqb (lower_ascii a) " " then "_"%char else lower_ascii a) = a.
Proof.
  destruct a as [[] [] [] [] [] [] [] []]; intros H;
    try reflexivity; discriminate H.
Qed.

Lemma standardize_fixed s :
  string_forall plain_char s = true -> standardize s = s.
Proof.
  unfold standardize. induction s as [|a s IH]; simpl; [reflexivity|].
  rewrite andb_true_iff. intros [Ha Hs].
  now rewrite (standardize_char_fixed _ Ha), (IH Hs).
Qed.

Lemma canonical_name_fixed s :
  standardize (canonical_name s) = canonical_name s /\
  forall src, In src renamed_names -> String.eqb (canonical_name s) src = false.
Proof.
  unfold canonical_name. cbv zeta.
  pose proof (standardize_fixed _ (standardize_plain s)) as Hfix.
  set (x := standardize s) in *.
  repeat (match goal with
          | |- context [String.eqb x ?b] => destruct (String.eqb x b) eqn:?
          end; cbn -[standardize x]);
    (split; [first [exact Hfix | reflexivity]|]);
    intros src Hsrc; simpl in Hsrc;
    repeat (destruct Hsrc as [<-|Hsrc]; [first [assumption | reflexivity]|]);
    contradiction.
Qed.

Lemma map_columns_fixed f d :
  (forall k, In k (names d) -> f k = k) -> map_columns f d = d.
Proof.
  intros H. destruct d as [cols rs]. unfold map_columns, names in *; simpl in *.
  f_equal.
  - apply map_fixed. intros k Hk. apply H. apply in_or_app. now left.
  - apply map_fixed. intros r Hr. destruct r as [l cs]; simpl. f_equal.
    apply map_fixed. intros [k v] Hkv. simpl. f_equal.
    apply H. apply in_or_app. right. apply in_flat_map.
    exists (mkRow l cs). split; [exact Hr|]. simpl.
    now apply (in_map fst) in Hkv.
Qed.

Lemma rename_absent old new d :
  (forall k, In k (names d) -> String.eqb k old = false) -> rename old new d = d.
Proof.
  intros H. unfold rename. apply map_columns_fixed.
  intros k Hk. now rewrite (H k Hk).
Qed.

Lemma canonicalize_fixed d :
  (forall k, In k (names d) ->
     standardize k = k /\
     forall src, In src renamed_names -> String.eqb k src = false) ->
  has_column "reporting_starts" d = false -> has_column "currency" d = false ->
  canonicalize d = d.
Proof.
  intros H Hrs Hcur. unfold canonicalize. cbv zeta.
  rewrite (map_columns_fixed standardize d) by (intros k Hk; apply H; exact Hk).
  rewrite !(rename_absent _ _ d), Hrs;
    try (intros k Hk; apply (H k Hk); simpl; tauto).
  rewrite !(rename_absent _ _ d), Hcur;
    try (intros k Hk; apply (H k Hk); simpl; tauto).
  reflexivity.
Qed.

Lemma canonicalize_twice d : canonicalize (canonicalize d) = canonicalize d.
Proof.
  apply canonicalize_fixed.
  - intros k Hk. destruct (names_canonicalize _ _ Hk) as [s ->].
    apply canonical_name_fixed.
  - destruct (has_column "reporting_starts" (canonicalize d)) eqn:E; [|reflexivity].
    exfalso. apply has_column_In in E. revert E.
    unfold canonicalize. cbv zeta. absent_name.
  - destruct (has_column "currency" (canonicalize d)) eqn:E; [|reflexivity].
    exfalso. apply has_column_In in E. revert E.
    unfold canonicalize. cbv zeta. absent_name.
Qed.

(** X16.  A call of [preprocess] can be repeated: on the caller's table
    as the first call left it (columns renamed in place), a second call
    with the same weights leaves the table as it is and returns what the
    first call returned. *)
Theorem preprocess_repeatable iw ew cw vw d :
  preprocess iw ew cw vw (caller_frame (preprocess iw ew cw vw) d)
  = preprocess iw ew cw vw d.
Proof.
  unfold caller_frame. rewrite !preprocess_run. simpl fst.
  now rewrite canonicalize_twice.
Qed.
